(** * AK8963 magnetometer driver (src/main/drivers/compass_ak8963.c)

    A shallow embedding of the driver's protocol code: the queued-read slot,
    the remaining-time check, the one-time calibration and the two per-tick
    readers (the direct one and the queued state machine that is compiled
    for the SPRACINGF3EVO target).

    Integers are [Z] with the C conversions written out, bytes are
    [Byte.byte], [float] is IEEE binary32 through [SpecFloat], and the
    hardware the driver talks to is an interface ([Platform]) over an
    abstract world. *)

From Stdlib Require Import ZArith List Bool Lia QArith.
From Stdlib Require Import Strings.Byte.
From Stdlib Require Import Floats.SpecFloat.
Import ListNotations.

Local Open Scope Z_scope.

(** ** Machine integers *)

Definition uint8 (z : Z) : Z := z mod 256.
Definition uint32 (z : Z) : Z := z mod 4294967296.

(** Conversion to a signed type keeps the value modulo 2^w (GCC). *)
Definition int8 (z : Z) : Z := (z + 128) mod 256 - 128.
Definition int16 (z : Z) : Z := (z + 32768) mod 65536 - 32768.
Definition int32 (z : Z) : Z := (z + 2147483648) mod 4294967296 - 2147483648.

(** The value of a [uint8_t] cell. *)
Definition u8 (b : byte) : Z := Z.of_N (Byte.to_N b).

(** [buf[i]]: the transport hands back the contents of the caller's buffer. *)
Definition buf_at (buf : list byte) (i : nat) : byte := nth i buf x00.

(** ** binary32 arithmetic *)

Definition f32_prec : Z := 24.
Definition f32_emax : Z := 128.

Definition f32_of_Z (z : Z) : spec_float := binary_normalize f32_prec f32_emax z 0 false.
Definition f32_add : spec_float -> spec_float -> spec_float := SFadd f32_prec f32_emax.
Definition f32_sub : spec_float -> spec_float -> spec_float := SFsub f32_prec f32_emax.
Definition f32_mul : spec_float -> spec_float -> spec_float := SFmul f32_prec f32_emax.
Definition f32_div : spec_float -> spec_float -> spec_float := SFdiv f32_prec f32_emax.

(** The rational a finite binary32 value denotes. *)
Definition Q_of_f32 (f : spec_float) : option Q :=
  match f with
  | S754_zero _ => Some 0%Q
  | S754_finite s m e =>
      let q := (inject_Z (Zpos m) * Qpower 2 e)%Q in
      Some (if s then Qopp q else q)
  | _ => None
  end.

(** Conversion of a float to an integer discards the fraction. *)
Definition f32_trunc (f : spec_float) : option Z :=
  match f with
  | S754_zero _ => Some 0
  | S754_finite s m e =>
      let a := if 0 <=? e then Zpos m * 2 ^ e else Zpos m / 2 ^ (- e) in
      Some (if s then - a else a)
  | _ => None
  end.

(** float -> int16_t: the C standard leaves the conversion undefined when the
    truncated value does not fit, which is [None] here. *)
Definition f32_to_int16 (f : spec_float) : option Z :=
  match f32_trunc f with
  | Some t => if (-32768 <=? t) && (t <=? 32767) then Some t else None
  | None => None
  end.

(** ** Register map *)

Definition AK8963_MAG_I2C_ADDRESS : Z := 0x0C.
Definition AK8963_Device_ID : Z := 0x48.

Definition AK8963_MAG_REG_WHO_AM_I : Z := 0x00.
Definition AK8963_MAG_REG_STATUS1 : Z := 0x02.
Definition AK8963_MAG_REG_HXL : Z := 0x03.
Definition AK8963_MAG_REG_STATUS2 : Z := 0x09.
Definition AK8963_MAG_REG_CNTL : Z := 0x0a.
Definition AK8963_MAG_REG_ASAX : Z := 0x10.

Definition READ_FLAG : Z := 0x80.

Definition STATUS1_DATA_READY : Z := 0x01.
Definition STATUS1_DATA_OVERRUN : Z := 0x02.

Definition STATUS2_DATA_ERROR : Z := 0x02.
Definition STATUS2_MAG_SENSOR_OVERFLOW : Z := 0x03.

Definition CNTL_MODE_POWER_DOWN : Z := 0x00.
Definition CNTL_MODE_ONCE : Z := 0x01.
Definition CNTL_MODE_CONT1 : Z := 0x02.
Definition CNTL_MODE_FUSE_ROM : Z := 0x0F.

(** common/axis.h *)
Definition X : nat := 0.
Definition Y : nat := 1.
Definition Z_ : nat := 2.

(** ak8963ReadState_e *)
Definition CHECK_STATUS : Z := 0.
Definition WAITING_FOR_STATUS : Z := 1.
Definition WAITING_FOR_DATA : Z := 2.

(** ** Calibration arithmetic (ak8963Init, lines 262-264)

    [(((float)(int8_t)calibration[i] - 128) / 256) + 1) * 30], every
    operand converted to [float]. *)
Definition gain_of_calibration (c : byte) : spec_float :=
  f32_mul
    (f32_add
       (f32_div (f32_sub (f32_of_Z (int8 (u8 c))) (f32_of_Z 128)) (f32_of_Z 256))
       (f32_of_Z 1))
    (f32_of_Z 30).

(** The formula as the specification words it, over the rationals. *)
Definition spec_gain (c : byte) : Q :=
  (((inject_Z (int8 (u8 c)) - 128) / 256 + 1) * 30)%Q.

(** ** Sample decoding (lines 350-352 and 377-379)

    [-(int16_t)(hi << 8 | lo) * gain], stored into an [int16_t]. *)
Definition raw_axis (hi lo : byte) : Z :=
  - int16 (Z.lor (Z.shiftl (u8 hi) 8) (u8 lo)).

Definition scaled_axis (hi lo : byte) (gain : spec_float) : option Z :=
  f32_to_int16 (f32_mul (f32_of_Z (raw_axis hi lo)) gain).

(** A fixed-size C array, indexed by axis. *)
Definition array (A : Type) : Type := nat -> A.

Definition store {A : Type} (i : nat) (v : A) (a : array A) : array A :=
  fun j => if Nat.eqb j i then v else a j.

(** A cell of the caller's [int16_t magData[3]]; [None] is a cell whose
    stored value the C standard does not determine. *)
Definition magData_t : Type := array (option Z).

Definition decode (buf : list byte) (gains : array spec_float) (magData : magData_t)
  : magData_t :=
  let magData := store X (scaled_axis (buf_at buf 1) (buf_at buf 0) (gains X)) magData in
  let magData := store Y (scaled_axis (buf_at buf 3) (buf_at buf 2) (gains Y)) magData in
  store Z_ (scaled_axis (buf_at buf 5) (buf_at buf 4) (gains Z_)) magData.

(** ** The hardware interface

    What the driver calls and this file does not contain: the clock and the
    delays of system.h, the MPU register access of accgyro_spi_mpu6500.h, the
    I2C bus of bus_i2c.h, the interrupt mask, and the MPU register numbers of
    accgyro_mpu.h.  A read hands back the contents of the caller's buffer
    after the call. *)
Class Platform (W : Type) : Type := {
  micros : W -> Z * W;
  delay : Z -> W -> W;
  delayMicroseconds : Z -> W -> W;
  mpu6500WriteRegister : Z -> Z -> W -> bool * W;
  mpu6500ReadRegister : Z -> Z -> W -> list byte * W;
  i2cRead : Z -> Z -> Z -> W -> (bool * list byte) * W;
  i2cWrite : Z -> Z -> Z -> W -> bool * W;
  __disable_irq : W -> W;
  __enable_irq : W -> W;
  MPU_RA_I2C_SLV0_ADDR : Z;
  MPU_RA_I2C_SLV0_REG : Z;
  MPU_RA_I2C_SLV0_CTRL : Z;
  MPU_RA_I2C_SLV0_DO : Z;
  MPU_RA_EXT_SENS_DATA_00 : Z
}.

(** ak8963Configuration_t: the two transport capabilities. *)
Record ak8963Configuration_t (W : Type) : Type := {
  read : Z -> Z -> Z -> W -> (bool * list byte) * W;
  write : Z -> Z -> Z -> W -> bool * W
}.
Arguments read {W}.
Arguments write {W}.

(** queuedReadState_t *)
Record queuedReadState_t : Type := {
  waiting : bool;
  len : Z;
  readStartedAt : Z
}.

(** What an invocation did, most recent first.  A register read records the
    value of [queuedRead.waiting] at the moment the buffer is filled. *)
Inductive event : Type :=
| EvMicros (t : Z)
| EvDelay (ms : Z)
| EvDelayMicroseconds (us : Z)
| EvWriteRegister (reg data : Z)
| EvReadRegister (reg len : Z) (waiting_then : bool)
| EvTransportRead (addr reg len : Z)
| EvTransportWrite (addr reg data : Z)
| EvRestart.

Section Driver.

Context {W : Type} {P : Platform W}.

(** The file-scope variables ([queuedRead], [magGain], the reader's static
    [state]), the world outside and the log. *)
Record machine : Type := {
  queuedRead : queuedReadState_t;
  state : Z;
  magGain : array spec_float;
  world : W;
  trace : list event
}.

Definition M (A : Type) : Type := machine -> A * machine.

Definition ret {A : Type} (a : A) : M A := fun m => (a, m).

Definition bind {A B : Type} (c : M A) (k : A -> M B) : M B :=
  fun m => let (a, m') := c m in k a m'.

Notation "x <- c ;; k" := (bind c (fun x => k))
  (at level 61, c at next level, right associativity).
Notation "' p <- c ;; k" := (bind c (fun x => let p := x in k))
  (at level 61, p pattern, c at next level, right associativity).
Notation "c ;; k" := (bind c (fun _ => k))
  (at level 61, right associativity).

Definition get {A : Type} (f : machine -> A) : M A := fun m => (f m, m).

Definition set_queuedRead (q : queuedReadState_t) : M unit := fun m =>
  (tt, {| queuedRead := q; state := state m; magGain := magGain m;
          world := world m; trace := trace m |}).

Definition set_state (s : Z) : M unit := fun m =>
  (tt, {| queuedRead := queuedRead m; state := s; magGain := magGain m;
          world := world m; trace := trace m |}).

Definition set_magGain (g : array spec_float) : M unit := fun m =>
  (tt, {| queuedRead := queuedRead m; state := state m; magGain := g;
          world := world m; trace := trace m |}).

Definition log (e : event) : M unit := fun m =>
  (tt, {| queuedRead := queuedRead m; state := state m; magGain := magGain m;
          world := world m; trace := e :: trace m |}).

(** A call out of the driver: run it on the world. *)
Definition call {A : Type} (f : W -> A * W) : M A := fun m =>
  let (a, w) := f (world m) in
  (a, {| queuedRead := queuedRead m; state := state m; magGain := magGain m;
         world := w; trace := trace m |}).

Definition set_waiting (b : bool) : M unit :=
  q <- get queuedRead ;;
  set_queuedRead {| waiting := b; len := len q; readStartedAt := readStartedAt q |}.

Definition set_len (n : Z) : M unit :=
  q <- get queuedRead ;;
  set_queuedRead {| waiting := waiting q; len := n; readStartedAt := readStartedAt q |}.

Definition set_readStartedAt (t : Z) : M unit :=
  q <- get queuedRead ;;
  set_queuedRead {| waiting := waiting q; len := len q; readStartedAt := t |}.

(** The clock is a [uint32_t] count of microseconds. *)
Definition call_micros : M Z :=
  t <- call micros ;;
  log (EvMicros (uint32 t)) ;;
  ret (uint32 t).

Definition call_delay (ms : Z) : M unit :=
  call (fun w => (tt, delay ms w)) ;;
  log (EvDelay ms).

Definition call_delayMicroseconds (us : Z) : M unit :=
  call (fun w => (tt, delayMicroseconds us w)) ;;
  log (EvDelayMicroseconds us).

(** [verifympu9250WriteRegister] and [mpu9250ReadRegister] are the MPU6500
    accessors (lines 98-103). *)
Definition verifympu9250WriteRegister (reg data : Z) : M bool :=
  ack <- call (mpu6500WriteRegister reg data) ;;
  log (EvWriteRegister reg data) ;;
  ret ack.

Definition mpu9250ReadRegister (reg length : Z) : M (list byte) :=
  q <- get queuedRead ;;
  buf <- call (mpu6500ReadRegister reg length) ;;
  log (EvReadRegister reg length (waiting q)) ;;
  ret buf.

(** ** The two transports (lines 105-126 and 189-199) *)

Definition ak8963SPIRead (addr_ reg_ len_ : Z) (w : W) : (bool * list byte) * W :=
  let (_, w) := mpu6500WriteRegister MPU_RA_I2C_SLV0_ADDR (uint8 (Z.lor addr_ READ_FLAG)) w in
  let (_, w) := mpu6500WriteRegister MPU_RA_I2C_SLV0_REG reg_ w in
  let (_, w) := mpu6500WriteRegister MPU_RA_I2C_SLV0_CTRL (uint8 (Z.lor len_ 0x80)) w in
  let w := delay 8 w in
  let w := __disable_irq w in
  let (buf, w) := mpu6500ReadRegister MPU_RA_EXT_SENS_DATA_00 len_ w in
  let w := __enable_irq w in
  ((true, buf), w).

Definition ak8963SPIWrite (addr_ reg_ data : Z) (w : W) : bool * W :=
  let (_, w) := mpu6500WriteRegister MPU_RA_I2C_SLV0_ADDR addr_ w in
  let (_, w) := mpu6500WriteRegister MPU_RA_I2C_SLV0_REG reg_ w in
  let (_, w) := mpu6500WriteRegister MPU_RA_I2C_SLV0_DO data w in
  let (_, w) := mpu6500WriteRegister MPU_RA_I2C_SLV0_CTRL 0x81 w in
  (true, w).

Definition c_i2cWrite (addr_ reg_ data : Z) (w : W) : bool * W :=
  i2cWrite addr_ reg_ data w.

Definition c_i2cRead (addr_ reg_ len : Z) (w : W) : (bool * list byte) * W :=
  i2cRead addr_ reg_ len w.

Definition spi_config : ak8963Configuration_t W :=
  {| read := ak8963SPIRead; write := ak8963SPIWrite |}.

Definition i2c_config : ak8963Configuration_t W :=
  {| read := c_i2cRead; write := c_i2cWrite |}.

(** [ak8963config.read(...)] and [ak8963config.write(...)]. *)
Definition config_read (cfg : ak8963Configuration_t W) (addr reg length : Z)
  : M (bool * list byte) :=
  r <- call (read cfg addr reg length) ;;
  log (EvTransportRead addr reg length) ;;
  ret r.

Definition config_write (cfg : ak8963Configuration_t W) (addr reg data : Z) : M bool :=
  ack <- call (write cfg addr reg data) ;;
  log (EvTransportWrite addr reg data) ;;
  ret ack.

(** ** The queued read (lines 128-187) *)

Definition ak8963SPIStartRead (addr_ reg_ len_ : Z) : M bool :=
  q <- get queuedRead ;;
  if waiting q then ret false
  else
    set_len len_ ;;
    verifympu9250WriteRegister MPU_RA_I2C_SLV0_ADDR (uint8 (Z.lor addr_ READ_FLAG)) ;;
    verifympu9250WriteRegister MPU_RA_I2C_SLV0_REG reg_ ;;
    verifympu9250WriteRegister MPU_RA_I2C_SLV0_CTRL (uint8 (Z.lor len_ 0x80)) ;;
    t <- call_micros ;;
    set_readStartedAt t ;;
    set_waiting true ;;
    ret true.

(** [timeSinceStarted] and [timeRemaining] are [int32_t]; the result is
    returned as a [uint32_t].  The subtraction from 8000 is kept modulo 2^32
    where C leaves its overflow undefined (a difference below 8000 - 2^31 + 1). *)
Definition ak8963SPIQueuedReadTimeRemaining : M Z :=
  q <- get queuedRead ;;
  if negb (waiting q) then ret 0
  else
    now <- call_micros ;;
    let timeSinceStarted := int32 (uint32 (now - readStartedAt q)) in
    let timeRemaining := int32 (8000 - timeSinceStarted) in
    if timeRemaining <? 0 then ret 0
    else ret (uint32 timeRemaining).

Definition ak8963SPICompleteRead : M (bool * list byte) :=
  timeRemaining <- ak8963SPIQueuedReadTimeRemaining ;;
  (if 0 <? timeRemaining then call_delayMicroseconds timeRemaining else ret tt) ;;
  set_waiting false ;;
  q <- get queuedRead ;;
  buf <- mpu9250ReadRegister MPU_RA_EXT_SENS_DATA_00 (len q) ;;
  ret (true, buf).

(** ** Calibration (lines 246-279) *)

Definition ak8963Init (SPRACINGF3EVO : bool) (cfg : ak8963Configuration_t W) : M unit :=
  config_write cfg AK8963_MAG_I2C_ADDRESS AK8963_MAG_REG_CNTL CNTL_MODE_POWER_DOWN ;;
  call_delay 20 ;;
  config_write cfg AK8963_MAG_I2C_ADDRESS AK8963_MAG_REG_CNTL CNTL_MODE_FUSE_ROM ;;
  call_delay 10 ;;
  r <- config_read cfg AK8963_MAG_I2C_ADDRESS AK8963_MAG_REG_ASAX 3 ;;
  let calibration := snd r in
  call_delay 10 ;;
  g <- get magGain ;;
  set_magGain (store X (gain_of_calibration (buf_at calibration X)) g) ;;
  g <- get magGain ;;
  set_magGain (store Y (gain_of_calibration (buf_at calibration Y)) g) ;;
  g <- get magGain ;;
  set_magGain (store Z_ (gain_of_calibration (buf_at calibration Z_)) g) ;;
  config_write cfg AK8963_MAG_I2C_ADDRESS AK8963_MAG_REG_CNTL CNTL_MODE_POWER_DOWN ;;
  call_delay 10 ;;
  config_read cfg AK8963_MAG_I2C_ADDRESS AK8963_MAG_REG_STATUS1 1 ;;
  config_read cfg AK8963_MAG_I2C_ADDRESS AK8963_MAG_REG_STATUS2 1 ;;
  (if SPRACINGF3EVO
   then config_write cfg AK8963_MAG_I2C_ADDRESS AK8963_MAG_REG_CNTL CNTL_MODE_CONT1
   else config_write cfg AK8963_MAG_I2C_ADDRESS AK8963_MAG_REG_CNTL CNTL_MODE_ONCE) ;;
  ret tt.

(** ** The reader (lines 287-383) *)

(** What an invocation hands back: the returned flag and the caller's
    [magData] after the call. *)
Definition outcome : Type := bool * magData_t.

(** The code from the label [restart:] on.  [goto restart] is the recursive
    call; it is logged and uses up one unit of [fuel]. *)
Fixpoint ak8963Read_restart (fuel : nat) (retry : bool) (magData : magData_t)
  : M (option outcome) :=
  match fuel with
  | O => ret None
  | S fuel' =>
    st <- get state ;;
    if st =? CHECK_STATUS then
      ak8963SPIStartRead AK8963_MAG_I2C_ADDRESS AK8963_MAG_REG_STATUS1 1 ;;
      st <- get state ;;
      set_state (st + 1) ;;
      ret (Some (false, magData))
    else if st =? WAITING_FOR_STATUS then
      timeRemaining <- ak8963SPIQueuedReadTimeRemaining ;;
      if negb (timeRemaining =? 0) then ret (Some (false, magData))
      else
        r <- ak8963SPICompleteRead ;;
        let ack := fst r in
        let buf := snd r in
        let status := u8 (buf_at buf 0) in
        if negb ack
           || ((Z.land status STATUS1_DATA_READY =? 0)
               && (Z.land status STATUS1_DATA_OVERRUN =? 0))
        then
          set_state CHECK_STATUS ;;
          if retry then
            log EvRestart ;;
            ak8963Read_restart fuel' false magData
          else ret (Some (false, magData))
        else
          ak8963SPIStartRead AK8963_MAG_I2C_ADDRESS AK8963_MAG_REG_HXL 7 ;;
          st <- get state ;;
          set_state (st + 1) ;;
          ret (Some (false, magData))
    else if st =? WAITING_FOR_DATA then
      timeRemaining <- ak8963SPIQueuedReadTimeRemaining ;;
      if negb (timeRemaining =? 0) then ret (Some (false, magData))
      else
        r <- ak8963SPICompleteRead ;;
        let ack := fst r in
        let buf := snd r in
        let status2 := u8 (buf_at buf 6) in
        if negb ack
           || negb (Z.land status2 STATUS2_DATA_ERROR =? 0)
           || negb (Z.land status2 STATUS2_MAG_SENSOR_OVERFLOW =? 0)
        then ret (Some (false, magData))
        else
          g <- get magGain ;;
          let magData := decode buf g magData in
          set_state CHECK_STATUS ;;
          ret (Some (true, magData))
    else ret (Some (false, magData))
  end.

(** The [#else] branch: status, data, re-arm. *)
Definition ak8963Read_direct (cfg : ak8963Configuration_t W) (magData : magData_t)
  : M outcome :=
  r <- config_read cfg AK8963_MAG_I2C_ADDRESS AK8963_MAG_REG_STATUS1 1 ;;
  let ack := fst r in
  let buf := snd r in
  let status := u8 (buf_at buf 0) in
  if negb ack || (Z.land status STATUS1_DATA_READY =? 0) then ret (false, magData)
  else
    r <- config_read cfg AK8963_MAG_I2C_ADDRESS AK8963_MAG_REG_HXL 7 ;;
    let ack := fst r in
    let buf := snd r in
    let status2 := u8 (buf_at buf 6) in
    if negb ack
       || negb (Z.land status2 STATUS2_DATA_ERROR =? 0)
       || negb (Z.land status2 STATUS2_MAG_SENSOR_OVERFLOW =? 0)
    then ret (false, magData)
    else
      g <- get magGain ;;
      let magData := decode buf g magData in
      ack <- config_write cfg AK8963_MAG_I2C_ADDRESS AK8963_MAG_REG_CNTL CNTL_MODE_ONCE ;;
      ret (ack, magData).

(** [ak8963Read]: the build flag picks the body; the queued body starts with
    [retry = true]. *)
Definition ak8963Read (SPRACINGF3EVO : bool) (cfg : ak8963Configuration_t W)
  (fuel : nat) (magData : magData_t) : M (option outcome) :=
  if SPRACINGF3EVO then ak8963Read_restart fuel true magData
  else r <- ak8963Read_direct cfg magData ;; ret (Some r).

End Driver.

Arguments machine W : clear implicits.
Arguments M W A : clear implicits.

(** ** A scripted platform

    A world for running the driver on concrete inputs: a clock that only the
    two delays advance, the replies of the successive reads and the
    acknowledgements of the successive writes. *)
Record sim : Type := {
  sim_clock : Z;
  sim_reads : list (bool * list byte);
  sim_acks : list bool
}.

Definition sim_read (w : sim) : (bool * list byte) * sim :=
  match sim_reads w with
  | [] => ((false, []), w)
  | r :: rest =>
      (r, {| sim_clock := sim_clock w; sim_reads := rest; sim_acks := sim_acks w |})
  end.

Definition sim_write (w : sim) : bool * sim :=
  match sim_acks w with
  | [] => (true, w)
  | a :: rest =>
      (a, {| sim_clock := sim_clock w; sim_reads := sim_reads w; sim_acks := rest |})
  end.

Definition sim_advance (us : Z) (w : sim) : sim :=
  {| sim_clock := sim_clock w + us; sim_reads := sim_reads w; sim_acks := sim_acks w |}.

#[export] Instance sim_platform : Platform sim := {
  micros := fun w => (sim_clock w, w);
  delay := fun ms => sim_advance (1000 * ms);
  delayMicroseconds := sim_advance;
  mpu6500WriteRegister := fun _ _ => sim_write;
  mpu6500ReadRegister := fun _ _ w => let (r, w') := sim_read w in (snd r, w');
  i2cRead := fun _ _ _ => sim_read;
  i2cWrite := fun _ _ _ => sim_write;
  __disable_irq := fun w => w;
  __enable_irq := fun w => w;
  MPU_RA_I2C_SLV0_ADDR := 0x25;
  MPU_RA_I2C_SLV0_REG := 0x26;
  MPU_RA_I2C_SLV0_CTRL := 0x27;
  MPU_RA_I2C_SLV0_DO := 0x63;
  MPU_RA_EXT_SENS_DATA_00 := 0x49
}.

(** [static float magGain[3] = { 1.0f, 1.0f, 1.0f }] *)
Definition magGain_init : array spec_float := fun _ => f32_of_Z 1.

Definition magData_init : magData_t := fun _ => Some 0.

(** A machine on the scripted platform. *)
Definition sim_machine (q : queuedReadState_t) (st : Z) (now : Z)
  (reads : list (bool * list byte)) (acks : list bool) : machine sim :=
  {| queuedRead := q; state := st; magGain := magGain_init;
     world := {| sim_clock := now; sim_reads := reads; sim_acks := acks |};
     trace := [] |}.

(** [static queuedReadState_t queuedRead = { false, 0, 0}] *)
Definition queuedRead_init : queuedReadState_t :=
  {| waiting := false; len := 0; readStartedAt := 0 |}.

(** The number of [goto restart] jumps in a log. *)
Fixpoint restarts (evs : list event) : nat :=
  match evs with
  | [] => 0
  | EvRestart :: rest => S (restarts rest)
  | _ :: rest => restarts rest
  end.

(** No buffer was filled while a queued read was outstanding. *)
Definition filled_idle (e : event) : Prop :=
  match e with
  | EvReadRegister _ _ waiting_then => waiting_then = false
  | _ => True
  end.

(** A stretch of log with no jump and no buffer filled while waiting. *)
Definition calm (evs : list event) : Prop :=
  restarts evs = 0%nat /\ Forall filled_idle evs.

(** A binary32 value denotes a rational. *)
Definition denotes (f : spec_float) (q : Q) : Prop :=
  match Q_of_f32 f with
  | Some q' => (q' == q)%Q
  | None => False
  end.

(** The three transport transactions of one invocation of the direct
    reader, in the order the reader issues them, from the world [w] it
    starts in. *)
Definition status_read {W : Type} (cfg : ak8963Configuration_t W) (w : W)
  : (bool * list byte) * W :=
  read cfg AK8963_MAG_I2C_ADDRESS AK8963_MAG_REG_STATUS1 1 w.

Definition data_read {W : Type} (cfg : ak8963Configuration_t W) (w : W)
  : (bool * list byte) * W :=
  read cfg AK8963_MAG_I2C_ADDRESS AK8963_MAG_REG_HXL 7 (snd (status_read cfg w)).

Definition rearm_write {W : Type} (cfg : ak8963Configuration_t W) (w : W) : bool * W :=
  write cfg AK8963_MAG_I2C_ADDRESS AK8963_MAG_REG_CNTL CNTL_MODE_ONCE
    (snd (data_read cfg w)).

(** The driver's variables carried into a later world: what the next
    invocation starts from. *)
Definition with_world {W : Type} (m : machine W) (w : W) : machine W :=
  {| queuedRead := queuedRead m; state := state m; magGain := magGain m;
     world := w; trace := trace m |}.

(** What ties the reader's state to the slot: CheckStatus is entered with
    the slot free, WaitingForStatus owns a 1-byte read and WaitingForData a
    7-byte read. *)
Definition queued_inv {W : Type} (m : machine W) : Prop :=
  (state m = CHECK_STATUS /\ waiting (queuedRead m) = false)
  \/ (state m = WAITING_FOR_STATUS /\ len (queuedRead m) = 1)
  \/ (state m = WAITING_FOR_DATA /\ len (queuedRead m) = 7).

(** ** Detection (lines 201-244)

    [mag_t] of compass.h holds the two entry points the sensor registry
    calls; a function pointer is the name of the function it points to.  The
    three MPU registers the probe programs are numbers of accgyro_mpu.h. *)
Inductive sensor_func : Type :=
| ak8963Init_func
| ak8963Read_func
| other_func (id : nat).

Record mag_t : Type := {
  mag_init : option sensor_func;
  mag_read : option sensor_func
}.

Record detect_registers : Type := {
  MPU_RA_INT_PIN_CFG : Z;
  MPU_RA_I2C_MST_CTRL : Z;
  MPU_RA_USER_CTRL : Z
}.

(** [mag->init = ak8963Init; mag->read = ak8963Read;] *)
Definition registered : mag_t :=
  {| mag_init := Some ak8963Init_func; mag_read := Some ak8963Read_func |}.

Section Detect.

Context {W : Type} {P : Platform W}.

Local Notation "x <- c ;; k" := (bind c (fun x => k))
  (at level 61, c at next level, right associativity).
Local Notation "c ;; k" := (bind c (fun _ => k))
  (at level 61, right associativity).

(** The [USE_SPI] block: program the pass-through master, then probe. *)
Definition ak8963Detect_spi (regs : detect_registers)
  (ak8963config : ak8963Configuration_t W) (mag : mag_t)
  : M W (bool * (ak8963Configuration_t W * mag_t)) :=
  verifympu9250WriteRegister (MPU_RA_INT_PIN_CFG regs) 0x10 ;;
  call_delay 10 ;;
  verifympu9250WriteRegister (MPU_RA_I2C_MST_CTRL regs) 0x0D ;;
  call_delay 10 ;;
  verifympu9250WriteRegister (MPU_RA_USER_CTRL regs) 0x30 ;;
  call_delay 10 ;;
  r <- call (ak8963SPIRead AK8963_MAG_I2C_ADDRESS AK8963_MAG_REG_WHO_AM_I 1) ;;
  log (EvTransportRead AK8963_MAG_I2C_ADDRESS AK8963_MAG_REG_WHO_AM_I 1) ;;
  let ack := fst r in
  let sig := u8 (buf_at (snd r) 0) in
  if ack && (sig =? AK8963_Device_ID)
  then ret (true, (spi_config, registered))
  else ret (false, (ak8963config, mag)).

(** [ak8963Detect]: the value of [ak8963config] and of [*mag] go in and come
    out; the two build flags select the blocks. *)
Definition ak8963Detect (USE_I2C USE_SPI : bool) (regs : detect_registers)
  (ak8963config : ak8963Configuration_t W) (mag : mag_t)
  : M W (bool * (ak8963Configuration_t W * mag_t)) :=
  let rest :=
    if USE_SPI then ak8963Detect_spi regs ak8963config mag
    else ret (false, (ak8963config, mag)) in
  if USE_I2C then
    r <- call (i2cRead AK8963_MAG_I2C_ADDRESS AK8963_MAG_REG_WHO_AM_I 1) ;;
    log (EvTransportRead AK8963_MAG_I2C_ADDRESS AK8963_MAG_REG_WHO_AM_I 1) ;;
    let ack := fst r in
    let sig := u8 (buf_at (snd r) 0) in
    if ack && (sig =? AK8963_Device_ID)
    then ret (true, (i2c_config, registered))
    else rest
  else rest.

(** The world the pass-through probe reads the identity register in. *)
Definition detect_spi_setup (regs : detect_registers) (w : W) : W :=
  let w := delay 10 (snd (mpu6500WriteRegister (MPU_RA_INT_PIN_CFG regs) 0x10 w)) in
  let w := delay 10 (snd (mpu6500WriteRegister (MPU_RA_I2C_MST_CTRL regs) 0x0D w)) in
  delay 10 (snd (mpu6500WriteRegister (MPU_RA_USER_CTRL regs) 0x30 w)).

(** The I2C probe, whether it finds the device, and the identity read of
    the pass-through probe that follows it. *)
Definition detect_i2c_probe (w : W) : (bool * list byte) * W :=
  i2cRead AK8963_MAG_I2C_ADDRESS AK8963_MAG_REG_WHO_AM_I 1 w.

Definition detect_i2c_found (USE_I2C : bool) (w : W) : bool :=
  USE_I2C && fst (fst (detect_i2c_probe w))
  && (u8 (buf_at (snd (fst (detect_i2c_probe w))) 0) =? AK8963_Device_ID).

Definition detect_spi_probe (USE_I2C : bool) (regs : detect_registers) (w : W)
  : (bool * list byte) * W :=
  ak8963SPIRead AK8963_MAG_I2C_ADDRESS AK8963_MAG_REG_WHO_AM_I 1
    (detect_spi_setup regs (if USE_I2C then snd (detect_i2c_probe w) else w)).

End Detect.

(** ** Enumerating bytes *)

Definition all_bytes : list byte :=
  Eval vm_compute in
    flat_map (fun n => match Byte.of_N (N.of_nat n) with
                       | Some b => [b]
                       | None => []
                       end) (seq 0 256).

(** A gain the calibration can produce: 30 k / 256 for a byte k. *)
Definition calibrated_gain (f : spec_float) : Prop :=
  exists k : Z, 0 <= k <= 255 /\ denotes f (inject_Z (30 * k) / 256).

(** What an axis holds after decoding with unit gain: the little-endian
    signed 16-bit reading, negated; the reading -32768 has no negation in
    [int16_t]. *)
Definition negated_reading (hi lo : byte) : option Z :=
  if (u8 hi =? 128) && (u8 lo =? 0) then None
  else Some (- int16 (u8 lo + 256 * u8 hi)).

Definition option_Z_eqb (a b : option Z) : bool :=
  match a, b with
  | Some x, Some y => x =? y
  | None, None => true
  | _, _ => false
  end.

(** ** The arithmetic of a decoded axis *)

(** A mantissa with nothing shifted out yet. *)
Definition exact_record (m : Z) : shr_record :=
  {| shr_m := m; shr_r := false; shr_s := false |}.

(** The factor a calibration byte stands for, in 256ths. *)
Definition gain_numerator (c : byte) : Z := 30 * ((u8 c + 128) mod 256).

(** The integer a decoded axis comes to: the exact product cut towards 0. *)
Definition scaled_reading (hi lo c : byte) : option Z :=
  let q := Z.quot (raw_axis hi lo * gain_numerator c) 256 in
  if (-32768 <=? q) && (q <=? 32767) then Some q else None.

(** The binary32 form of a raw reading and of a gain. *)
Definition raw_shape (hi lo : byte) : bool :=
  let raw := raw_axis hi lo in
  match f32_of_Z raw with
  | S754_zero s => (raw =? 0) && negb s
  | S754_finite s m e =>
      negb (raw =? 0) && Bool.eqb s (raw <? 0) && (e <=? 0) && (-23 <=? e)
      && (Zpos m =? Z.abs raw * 2 ^ (- e)) && (Zpos m <? 16777216)
      && (Z.abs raw <=? 32768)
  | _ => false
  end.

Definition gain_shape (c : byte) : bool :=
  let K := gain_numerator c in
  match gain_of_calibration c with
  | S754_zero s => (K =? 0) && negb s
  | S754_finite s m e =>
      negb s && (0 <? K) && (K <=? 7650) && (e + 8 <=? 0) && (-31 <=? e)
      && (Zpos m =? K * 2 ^ (- e - 8)) && (Zpos m <? 16777216)
  | _ => false
  end.

(** ** Proof steps *)

(** Name the result of the next call into the platform. *)
Ltac platform_step :=
  match goal with
  | |- context [@micros _ _ ?w] => destruct (micros w) as [? ?] eqn:?
  | |- context [@mpu6500WriteRegister _ _ ?r ?d ?w] =>
      destruct (mpu6500WriteRegister r d w) as [? ?] eqn:?
  | |- context [@mpu6500ReadRegister _ _ ?r ?l ?w] =>
      destruct (mpu6500ReadRegister r l w) as [? ?] eqn:?
  | |- context [@read _ ?c ?a ?r ?l ?w] =>
      destruct (read c a r l w) as [[? ?] ?] eqn:?
  | |- context [@write _ ?c ?a ?r ?d ?w] =>
      destruct (write c a r d w) as [? ?] eqn:?
  end; cbn.

Ltac solve_trace :=
  cbn [app]; rewrite <- ?app_assoc; cbn [app]; rewrite <- ?app_assoc; reflexivity.

Ltac solve_calm :=
  repeat first
    [ assumption
    | apply Forall_app; split
    | apply Forall_cons; [ cbn; trivial | ]
    | apply Forall_nil ].

(** * Properties *)

(** ** Machine arithmetic *)

Lemma uint32_range (z : Z) : 0 <= uint32 z < 4294967296.
Proof. unfold uint32. apply Z.mod_pos_bound. lia. Qed.

Lemma uint32_small (z : Z) : 0 <= z < 4294967296 -> uint32 z = z.
Proof. unfold uint32. apply Z.mod_small. Qed.

Lemma clock_difference (T now : Z) :
  0 <= now - T < 2147483648 ->
  int32 (uint32 (uint32 now - uint32 T)) = now - T.
Proof.
  intros H. unfold int32, uint32.
  Z.div_mod_to_equations. lia.
Qed.

Lemma clock_difference_late (T now : Z) :
  2147483648 <= now - T < 4294967296 ->
  int32 (uint32 (uint32 now - uint32 T)) = now - T - 4294967296.
Proof.
  intros H. unfold int32, uint32.
  Z.div_mod_to_equations. lia.
Qed.

Lemma int32_small (z : Z) : -2147483648 <= z < 2147483648 -> int32 z = z.
Proof.
  intros H. unfold int32.
  Z.div_mod_to_equations. lia.
Qed.

(** What the remaining-time check computes from a clock reading. *)
Lemma time_remaining_unfold {W : Type} {P : Platform W} (m : machine W) :
  fst (ak8963SPIQueuedReadTimeRemaining m) =
  if negb (waiting (queuedRead m)) then 0
  else
    let now := uint32 (fst (micros (world m))) in
    let timeRemaining :=
      int32 (8000 - int32 (uint32 (now - readStartedAt (queuedRead m)))) in
    if timeRemaining <? 0 then 0 else uint32 timeRemaining.
Proof.
  unfold ak8963SPIQueuedReadTimeRemaining, bind, get, call_micros, call, log, ret, bind.
  destruct (waiting (queuedRead m)); cbn [negb]; [ | reflexivity ].
  destruct (micros (world m)) as [t w]; cbn [fst].
  match goal with |- context [if ?c then _ else _] => destruct c end; reflexivity.
Qed.

(** ** The queued-read slot *)

(** C6: a start request made while a queued read is outstanding returns
    false and changes nothing: the recorded length, the start time and the
    waiting flag stay as they are, no register is written, the log is the
    same. *)
Theorem ak8963SPIStartRead_while_waiting {W : Type} {P : Platform W}
  (addr_ reg_ len_ : Z) (m : machine W) :
  waiting (queuedRead m) = true ->
  ak8963SPIStartRead addr_ reg_ len_ m = (false, m).
Proof.
  intros Hw. unfold ak8963SPIStartRead, bind, get.
  rewrite Hw. reflexivity.
Qed.

Lemma ak8963SPIStartRead_while_waiting_witness :
  let m := sim_machine {| waiting := true; len := 7; readStartedAt := 100 |}
             WAITING_FOR_DATA 4000 [(true, [x01])] [] in
  waiting (queuedRead m) = true /\
  ak8963SPIStartRead AK8963_MAG_I2C_ADDRESS AK8963_MAG_REG_STATUS1 1 m = (false, m).
Proof.
  split; [ reflexivity | apply ak8963SPIStartRead_while_waiting; reflexivity ].
Defined.

(** When the slot is free the request is taken: length and start time are
    recorded and the flag is raised. *)
Lemma ak8963SPIStartRead_when_idle {W : Type} {P : Platform W}
  (addr_ reg_ len_ : Z) (m : machine W) :
  waiting (queuedRead m) = false ->
  exists t m',
    ak8963SPIStartRead addr_ reg_ len_ m = (true, m') /\
    queuedRead m' = {| waiting := true; len := len_; readStartedAt := uint32 t |} /\
    state m' = state m /\ magGain m' = magGain m.
Proof.
  intros Hw.
  unfold ak8963SPIStartRead, bind, get. rewrite Hw.
  unfold set_len, verifympu9250WriteRegister, call_micros, set_readStartedAt,
    set_waiting, set_queuedRead, call, log, ret, bind, get; cbn.
  repeat platform_step.
  eexists _, _. split; [ reflexivity | ]. cbn. repeat split.
Qed.

(** ** The remaining-time check *)

(** With no read outstanding nothing remains. *)
Lemma time_remaining_idle {W : Type} {P : Platform W} (m : machine W) :
  waiting (queuedRead m) = false ->
  ak8963SPIQueuedReadTimeRemaining m = (0, m).
Proof.
  intros Hw. unfold ak8963SPIQueuedReadTimeRemaining, bind, get.
  rewrite Hw. reflexivity.
Qed.

(** C7, as the code has it: for a read queued at time [T] and a query at
    time [now] (the 32-bit clock shows both modulo 2^32), the remaining time
    is [T + 8000 - now], strictly positive, before [T + 8000]; it is 0 from
    [T + 8000] on for as long as the signed 32-bit difference has not turned
    negative (less than 2^31 microseconds elapsed); and it is 0 when no
    read is waiting. *)
Theorem time_remaining_gate {W : Type} {P : Platform W} (m : machine W) (T now : Z) :
  readStartedAt (queuedRead m) = uint32 T ->
  fst (micros (world m)) = now ->
  T <= now < T + 2147483648 ->
  (waiting (queuedRead m) = true -> now < T + 8000 ->
   fst (ak8963SPIQueuedReadTimeRemaining m) = T + 8000 - now /\
   0 < fst (ak8963SPIQueuedReadTimeRemaining m)) /\
  (waiting (queuedRead m) = true -> T + 8000 <= now ->
   fst (ak8963SPIQueuedReadTimeRemaining m) = 0) /\
  (waiting (queuedRead m) = false ->
   fst (ak8963SPIQueuedReadTimeRemaining m) = 0).
Proof.
  intros HT Hnow Hrange.
  assert (Hd : int32 (8000 - (now - T)) = 8000 - (now - T))
    by (apply int32_small; lia).
  split; [ | split ].
  - intros Hw Hlt.
    rewrite time_remaining_unfold, Hw, HT, Hnow. cbn [negb]. cbv zeta.
    rewrite (clock_difference T now) by lia. rewrite Hd.
    destruct (Z.ltb_spec (8000 - (now - T)) 0); [ lia | ].
    rewrite uint32_small by lia. lia.
  - intros Hw Hge.
    rewrite time_remaining_unfold, Hw, HT, Hnow. cbn [negb]. cbv zeta.
    rewrite (clock_difference T now) by lia. rewrite Hd.
    destruct (Z.ltb_spec (8000 - (now - T)) 0); [ reflexivity | ].
    assert (now - T = 8000) as -> by lia. reflexivity.
  - intros Hw. rewrite time_remaining_idle by assumption. reflexivity.
Qed.

Lemma time_remaining_gate_witness :
  let m := sim_machine {| waiting := true; len := 1; readStartedAt := 4294967000 |}
             WAITING_FOR_STATUS 4294968000 [] [] in
  (waiting (queuedRead m) = true -> 4294968000 < 4294967000 + 8000 ->
   fst (ak8963SPIQueuedReadTimeRemaining m) = 7000 /\
   0 < fst (ak8963SPIQueuedReadTimeRemaining m)) /\
  (waiting (queuedRead m) = true -> 4294967000 + 8000 <= 4294968000 ->
   fst (ak8963SPIQueuedReadTimeRemaining m) = 0) /\
  (waiting (queuedRead m) = false ->
   fst (ak8963SPIQueuedReadTimeRemaining m) = 0).
Proof.
  cbv zeta.
  apply (time_remaining_gate _ 4294967000 4294968000);
    [ reflexivity | reflexivity | lia ].
Defined.

(** X3: past 2^31 microseconds the signed difference is negative and the check
    counts down from the far side again. *)
Lemma time_remaining_wraps {W : Type} {P : Platform W} (m : machine W) (T now : Z) :
  waiting (queuedRead m) = true ->
  readStartedAt (queuedRead m) = uint32 T ->
  fst (micros (world m)) = now ->
  T + 2147483648 + 8000 < now < T + 4294967296 ->
  fst (ak8963SPIQueuedReadTimeRemaining m) = T + 4294967296 + 8000 - now.
Proof.
  intros Hw HT Hnow Hrange.
  rewrite time_remaining_unfold, Hw, HT, Hnow. cbn [negb]. cbv zeta.
  rewrite (clock_difference_late T now) by lia.
  rewrite int32_small by lia.
  destruct (Z.ltb_spec (8000 - (now - T - 4294967296)) 0); [ lia | ].
  rewrite uint32_small by lia. lia.
Qed.

(** C7 as stated fails: a read queued at time 0 and queried 2^31 + 8001
    microseconds later, long after the budget, reports 2147483647
    microseconds remaining. *)
Lemma time_remaining_after_2_31 :
  let m := sim_machine {| waiting := true; len := 7; readStartedAt := 0 |}
             WAITING_FOR_DATA 2147491649 [] [] in
  0 + 8000 <= fst (micros (world m)) /\
  fst (ak8963SPIQueuedReadTimeRemaining m) = 2147483647 /\
  fst (ak8963SPIQueuedReadTimeRemaining m) <> 0.
Proof.
  cbv zeta. split; [ | split ].
  - vm_compute. discriminate.
  - vm_compute. reflexivity.
  - vm_compute. discriminate.
Qed.

(** ** Calibration *)

(** On every byte the binary32 computation is exact: the stored gain is the
    rational the formula gives. *)
Lemma gain_of_calibration_exact (c : byte) :
  denotes (gain_of_calibration c) (spec_gain c).
Proof.
  destruct c; vm_compute; reflexivity.
Qed.

(** The gain is one of 0, 30/256, ..., 30 * 255/256: it never reaches 30. *)
Lemma gain_of_calibration_below_30 (c : byte) :
  (spec_gain c < 30)%Q /\ (0 <= spec_gain c)%Q.
Proof.
  destruct c; split; vm_compute; first [ reflexivity | discriminate ].
Qed.

(** C5, as the code has it: initialization stores, for each axis, the gain
    computed from the calibration byte read for that axis; that gain is
    exactly (((signed8(b) - 128) / 256) + 1) * 30; and for b = 128, whose
    signed reading is -128, it is 0. *)
Theorem ak8963Init_gain {W : Type} {P : Platform W}
  (SPRACINGF3EVO : bool) (cfg : ak8963Configuration_t W) (m : machine W) :
  let w1 := snd (write cfg AK8963_MAG_I2C_ADDRESS AK8963_MAG_REG_CNTL
                   CNTL_MODE_POWER_DOWN (world m)) in
  let w2 := snd (write cfg AK8963_MAG_I2C_ADDRESS AK8963_MAG_REG_CNTL
                   CNTL_MODE_FUSE_ROM (delay 20 w1)) in
  let calibration :=
    snd (fst (read cfg AK8963_MAG_I2C_ADDRESS AK8963_MAG_REG_ASAX 3 (delay 10 w2))) in
  let m' := snd (ak8963Init SPRACINGF3EVO cfg m) in
  (magGain m' X = gain_of_calibration (buf_at calibration X) /\
   magGain m' Y = gain_of_calibration (buf_at calibration Y) /\
   magGain m' Z_ = gain_of_calibration (buf_at calibration Z_)) /\
  (forall b : byte, denotes (gain_of_calibration b) (spec_gain b)) /\
  gain_of_calibration x80 = S754_zero false.
Proof.
  intros w1 w2 calibration m'. split; [ | split ].
  - subst m'.
    unfold ak8963Init, config_write, config_read, call_delay, set_magGain,
      call, log, ret, bind, get; cbn.
    repeat platform_step.
    destruct SPRACINGF3EVO; repeat platform_step;
      subst calibration w2 w1; cbn [fst snd];
      repeat match goal with
             | H : _ = (_, _) |- _ => rewrite H; cbn [fst snd]
             end;
      repeat split.
  - exact gain_of_calibration_exact.
  - vm_compute. reflexivity.
Qed.

(** C5 as stated fails at b = 128: after an initialization that reads the
    calibration bytes 128, 128, 128 the stored gain is 0, not 30. *)
Lemma ak8963Init_gain_of_128 :
  let m := sim_machine queuedRead_init CHECK_STATUS 0
             [(true, [x80; x80; x80]); (true, [x00]); (true, [x00])] [] in
  let m' := snd (ak8963Init false i2c_config m) in
  magGain m' X = S754_zero false /\
  magGain m' X <> f32_of_Z 30 /\
  ~ denotes (magGain m' X) 30.
Proof.
  cbv zeta. split; [ | split ].
  - vm_compute. reflexivity.
  - vm_compute. discriminate.
  - vm_compute. discriminate.
Qed.

(** ** What the queued-read operations leave alone *)

Lemma calm_nil : calm [].
Proof. split; [ reflexivity | constructor ]. Qed.

Lemma calm_app (a b : list event) : calm a -> calm b -> calm (a ++ b).
Proof.
  intros [Ra Fa] [Rb Fb]. split.
  - clear Fa Fb. induction a as [ | e a IH ]; [ exact Rb | ].
    destruct e; cbn in *; try (apply IH; assumption). discriminate.
  - apply Forall_app. split; assumption.
Qed.

Lemma restarts_app (a b : list event) :
  restarts (a ++ b) = (restarts a + restarts b)%nat.
Proof.
  induction a as [ | e a IH ]; [ reflexivity | ].
  destruct e; cbn; rewrite ?IH; reflexivity.
Qed.

Lemma time_remaining_frame {W : Type} {P : Platform W} (m : machine W) :
  let m' := snd (ak8963SPIQueuedReadTimeRemaining m) in
  queuedRead m' = queuedRead m /\ state m' = state m /\ magGain m' = magGain m /\
  exists evs, trace m' = evs ++ trace m /\ calm evs.
Proof.
  unfold ak8963SPIQueuedReadTimeRemaining, call_micros, call, log, ret, bind, get.
  destruct (waiting (queuedRead m)); cbn.
  - platform_step.
    match goal with |- context [if ?c then _ else _] => destruct c end; cbn;
      repeat split; eexists [_]; (split; [ reflexivity | ]);
      (split; [ reflexivity | repeat constructor ]).
  - repeat split. exists []. split; [ reflexivity | apply calm_nil ].
Qed.

Lemma time_remaining_nonneg {W : Type} {P : Platform W} (m : machine W) :
  0 <= fst (ak8963SPIQueuedReadTimeRemaining m).
Proof.
  rewrite time_remaining_unfold.
  destruct (negb (waiting (queuedRead m))); [ lia | ]. cbv zeta.
  match goal with |- context [if ?c then _ else _] => destruct c end; [ lia | ].
  apply uint32_range.
Qed.

(** The completion always acknowledges, lowers the flag and only then fills
    the buffer. *)
Lemma complete_read_frame {W : Type} {P : Platform W} (m : machine W) :
  let r := ak8963SPICompleteRead m in
  fst (fst r) = true /\
  queuedRead (snd r) =
    {| waiting := false; len := len (queuedRead m);
       readStartedAt := readStartedAt (queuedRead m) |} /\
  state (snd r) = state m /\ magGain (snd r) = magGain m /\
  exists evs,
    trace (snd r) =
      EvReadRegister MPU_RA_EXT_SENS_DATA_00 (len (queuedRead m)) false
        :: evs ++ trace m /\
    calm evs.
Proof.
  cbv zeta. unfold ak8963SPICompleteRead, bind.
  destruct (time_remaining_frame m) as (Hq & Hs & Hg & evs & Ht & Hc).
  destruct (ak8963SPIQueuedReadTimeRemaining m) as [r m1]. cbn [snd] in *.
  destruct (0 <? r).
  - unfold call_delayMicroseconds, set_waiting, set_queuedRead, mpu9250ReadRegister,
      call, log, ret, bind, get; cbn.
    platform_step. rewrite Hq, Hs, Hg, Ht. repeat split.
    exists (EvDelayMicroseconds r :: evs). split; [ reflexivity | ].
    apply (calm_app [_] evs); [ | exact Hc ].
    split; [ reflexivity | repeat constructor ].
  - unfold set_waiting, set_queuedRead, mpu9250ReadRegister,
      call, log, ret, bind, get; cbn.
    platform_step. rewrite Hq, Hs, Hg, Ht. repeat split.
    exists evs. split; [ reflexivity | exact Hc ].
Qed.

Lemma start_read_frame {W : Type} {P : Platform W} (addr_ reg_ len_ : Z) (m : machine W) :
  let r := ak8963SPIStartRead addr_ reg_ len_ m in
  state (snd r) = state m /\ magGain (snd r) = magGain m /\
  exists evs, trace (snd r) = evs ++ trace m /\ calm evs.
Proof.
  cbv zeta. unfold ak8963SPIStartRead, bind, get.
  destruct (waiting (queuedRead m)).
  - cbn. repeat split. exists []. split; [ reflexivity | apply calm_nil ].
  - unfold set_len, verifympu9250WriteRegister, call_micros, set_readStartedAt,
      set_waiting, set_queuedRead, call, log, ret, bind, get; cbn.
    repeat platform_step. repeat split.
    eexists [_; _; _; _]. split; [ reflexivity | ].
    split; [ reflexivity | repeat constructor ].
Qed.

(** ** The queued reader, state by state *)

Section QueuedReader.

Context {W : Type} {P : Platform W}.
Variables (fuel : nat) (retry : bool) (magData : magData_t) (m : machine W).

(** CheckStatus: queue the status read, move on, no sample. *)
Lemma restart_CHECK_STATUS :
  state m = CHECK_STATUS ->
  ak8963Read_restart (S fuel) retry magData m =
  (Some (false, magData),
   snd (set_state WAITING_FOR_STATUS
          (snd (ak8963SPIStartRead AK8963_MAG_I2C_ADDRESS AK8963_MAG_REG_STATUS1 1 m)))).
Proof.
  intros Hst. cbn [ak8963Read_restart]. unfold bind at 1. unfold get at 1.
  rewrite Hst. cbn [Z.eqb CHECK_STATUS]. unfold bind.
  destruct (start_read_frame AK8963_MAG_I2C_ADDRESS AK8963_MAG_REG_STATUS1 1 m)
    as (Hs & _).
  destruct (ak8963SPIStartRead AK8963_MAG_I2C_ADDRESS AK8963_MAG_REG_STATUS1 1 m)
    as [b m1].
  cbn [snd] in *. unfold get, set_state, ret. rewrite Hs, Hst. reflexivity.
Qed.

(** Both waiting states: while time remains, no sample and nothing else. *)
Lemma restart_gate_closed :
  state m = WAITING_FOR_STATUS \/ state m = WAITING_FOR_DATA ->
  fst (ak8963SPIQueuedReadTimeRemaining m) <> 0 ->
  ak8963Read_restart (S fuel) retry magData m =
  (Some (false, magData), snd (ak8963SPIQueuedReadTimeRemaining m)).
Proof.
  intros Hst Hrem. cbn [ak8963Read_restart]. unfold bind at 1. unfold get at 1.
  destruct Hst as [Hst | Hst]; rewrite Hst;
    cbn [Z.eqb CHECK_STATUS WAITING_FOR_STATUS WAITING_FOR_DATA Pos.eqb]; unfold bind;
    destruct (ak8963SPIQueuedReadTimeRemaining m) as [r m1]; cbn [fst snd] in *;
    destruct (Z.eqb_spec r 0); [ contradiction | reflexivity
                               | contradiction | reflexivity ].
Qed.

(** WaitingForStatus, budget elapsed. *)
Lemma restart_WAITING_FOR_STATUS :
  state m = WAITING_FOR_STATUS ->
  fst (ak8963SPIQueuedReadTimeRemaining m) = 0 ->
  let cr := ak8963SPICompleteRead (snd (ak8963SPIQueuedReadTimeRemaining m)) in
  let status := u8 (buf_at (snd (fst cr)) 0) in
  ak8963Read_restart (S fuel) retry magData m =
  if (Z.land status STATUS1_DATA_READY =? 0) && (Z.land status STATUS1_DATA_OVERRUN =? 0)
  then
    let m2 := snd (set_state CHECK_STATUS (snd cr)) in
    if retry then ak8963Read_restart fuel false magData (snd (log EvRestart m2))
    else (Some (false, magData), m2)
  else
    (Some (false, magData),
     snd (set_state WAITING_FOR_DATA
            (snd (ak8963SPIStartRead AK8963_MAG_I2C_ADDRESS AK8963_MAG_REG_HXL 7
                    (snd cr))))).
Proof.
  intros Hst Hrem. cbv zeta. cbn [ak8963Read_restart]. unfold bind at 1. unfold get at 1.
  rewrite Hst. cbn [Z.eqb CHECK_STATUS WAITING_FOR_STATUS WAITING_FOR_DATA Pos.eqb].
  unfold bind at 1.
  destruct (time_remaining_frame m) as (_ & Hs1 & _).
  destruct (ak8963SPIQueuedReadTimeRemaining m) as [r m1]. cbn [fst snd] in *.
  subst r. cbn [Z.eqb negb]. unfold bind at 1.
  destruct (complete_read_frame m1) as (Hack & _ & Hs2 & _).
  destruct (ak8963SPICompleteRead m1) as [[ack buf] m2]. cbn [fst snd] in *.
  subst ack. cbn [negb orb].
  match goal with |- context [if ?c then _ else _] => destruct c end.
  - unfold bind, set_state, log. cbn. destruct retry; reflexivity.
  - unfold bind.
    destruct (start_read_frame AK8963_MAG_I2C_ADDRESS AK8963_MAG_REG_HXL 7 m2)
      as (Hs3 & _).
    destruct (ak8963SPIStartRead AK8963_MAG_I2C_ADDRESS AK8963_MAG_REG_HXL 7 m2)
      as [b m3].
    cbn [snd] in *. unfold get, set_state, ret. rewrite Hs3, Hs2, Hs1, Hst. reflexivity.
Qed.

(** WaitingForData, budget elapsed. *)
Lemma restart_WAITING_FOR_DATA :
  state m = WAITING_FOR_DATA ->
  fst (ak8963SPIQueuedReadTimeRemaining m) = 0 ->
  let cr := ak8963SPICompleteRead (snd (ak8963SPIQueuedReadTimeRemaining m)) in
  let buf := snd (fst cr) in
  let status2 := u8 (buf_at buf 6) in
  ak8963Read_restart (S fuel) retry magData m =
  if negb (Z.land status2 STATUS2_DATA_ERROR =? 0)
     || negb (Z.land status2 STATUS2_MAG_SENSOR_OVERFLOW =? 0)
  then (Some (false, magData), snd cr)
  else (Some (true, decode buf (magGain m) magData),
        snd (set_state CHECK_STATUS (snd cr))).
Proof.
  intros Hst Hrem. cbv zeta. cbn [ak8963Read_restart]. unfold bind at 1. unfold get at 1.
  rewrite Hst. cbn [Z.eqb CHECK_STATUS WAITING_FOR_STATUS WAITING_FOR_DATA Pos.eqb].
  unfold bind at 1.
  destruct (time_remaining_frame m) as (_ & _ & Hg1 & _).
  destruct (ak8963SPIQueuedReadTimeRemaining m) as [r m1]. cbn [fst snd] in *.
  subst r. cbn [Z.eqb negb]. unfold bind at 1.
  destruct (complete_read_frame m1) as (Hack & _ & _ & Hg2 & _).
  destruct (ak8963SPICompleteRead m1) as [[ack buf] m2]. cbn [fst snd] in *.
  subst ack. cbn [negb orb].
  match goal with |- context [if ?c then _ else _] => destruct c end.
  - reflexivity.
  - unfold bind, get, set_state, ret. rewrite Hg2, Hg1. reflexivity.
Qed.

(** Any other value of [state] falls out of the switch. *)
Lemma restart_no_case :
  state m <> CHECK_STATUS -> state m <> WAITING_FOR_STATUS ->
  state m <> WAITING_FOR_DATA ->
  ak8963Read_restart (S fuel) retry magData m = (Some (false, magData), m).
Proof.
  intros H0 H1 H2. cbn [ak8963Read_restart]. unfold bind, get.
  destruct (Z.eqb_spec (state m) CHECK_STATUS); [ contradiction | ].
  destruct (Z.eqb_spec (state m) WAITING_FOR_STATUS); [ contradiction | ].
  destruct (Z.eqb_spec (state m) WAITING_FOR_DATA); [ contradiction | ].
  reflexivity.
Qed.

End QueuedReader.

(** ** The log of one invocation of the queued reader *)

(** Whatever the fuel: the invocation only adds to the log, it fills no
    buffer while a queued read is outstanding, it jumps back at most once (not
    at all once [retry] is spent), and when it returns a sample the queued
    transaction was completed in this invocation and the flag is down. *)
Lemma ak8963Read_restart_log {W : Type} {P : Platform W} (fuel : nat) :
  forall (retry : bool) (magData : magData_t) (m : machine W),
  let r := ak8963Read_restart fuel retry magData m in
  exists evs,
    trace (snd r) = evs ++ trace m /\
    Forall filled_idle evs /\
    (restarts evs <= if retry then 1 else 0)%nat /\
    (forall magData', fst r = Some (true, magData') ->
       waiting (queuedRead (snd r)) = false /\
       In (EvReadRegister MPU_RA_EXT_SENS_DATA_00 (len (queuedRead m)) false) evs).
Proof.
  induction fuel as [ | fuel IH ]; intros retry magData m; cbv zeta.
  { exists []. cbn. split; [ reflexivity | ]. split; [ constructor | ].
    split; [ destruct retry; lia | ].
    intros ? ?; discriminate. }
  destruct (time_remaining_frame m) as (Hq1 & Hs1 & Hg1 & evs1 & Ht1 & Hr1 & Hf1).
  destruct (complete_read_frame (snd (ak8963SPIQueuedReadTimeRemaining m)))
    as (_ & Hq2 & Hs2 & Hg2 & evs2 & Ht2 & Hr2 & Hf2).
  destruct (Z.eq_dec (state m) CHECK_STATUS) as [H0 | H0].
  { rewrite restart_CHECK_STATUS by assumption.
    destruct (start_read_frame AK8963_MAG_I2C_ADDRESS AK8963_MAG_REG_STATUS1 1 m)
      as (_ & _ & evs & Ht & Hr & Hf).
    exists evs. unfold set_state; cbn [fst snd trace].
    repeat split; try assumption.
    - rewrite Hr. destruct retry; lia.
    - discriminate.
    - discriminate. }
  destruct (Z.eq_dec (state m) WAITING_FOR_STATUS) as [H1 | H1].
  { destruct (Z.eq_dec (fst (ak8963SPIQueuedReadTimeRemaining m)) 0) as [Hz | Hnz].
    - rewrite restart_WAITING_FOR_STATUS by assumption. cbv zeta.
      match goal with |- context [if ?c then _ else _] => destruct c end.
      + destruct retry.
        * match goal with
          | |- context [ak8963Read_restart fuel false magData ?m'] =>
              destruct (IH false magData m') as (evs3 & Ht3 & Hf3 & Hr3 & Hs3)
          end.
          unfold set_state, log in Ht3, Hs3 |- *; cbn [fst snd trace queuedRead] in Ht3, Hs3 |- *.
          exists (evs3 ++ EvRestart
                    :: EvReadRegister MPU_RA_EXT_SENS_DATA_00 (len (queuedRead m)) false
                    :: evs2 ++ evs1).
          split; [ rewrite Ht3, Ht2, Ht1, Hq1; solve_trace | ].
          split; [ solve_calm | ].
          split.
          { rewrite restarts_app. cbn [restarts]. rewrite restarts_app, Hr2, Hr1. lia. }
          intros magData' Hres. destruct (Hs3 magData' Hres) as [Hw Hin].
          split; [ exact Hw | ].
          apply in_or_app. left. rewrite Hq2 in Hin. cbn [len] in Hin.
          rewrite Hq1 in Hin. exact Hin.
        * unfold set_state; cbn [fst snd trace].
          exists (EvReadRegister MPU_RA_EXT_SENS_DATA_00 (len (queuedRead m)) false
                    :: evs2 ++ evs1).
          split; [ rewrite Ht2, Ht1, Hq1; solve_trace | ].
          split; [ solve_calm | ].
          split; [ cbn [restarts]; rewrite restarts_app, Hr2, Hr1; lia | ].
          intros ? ?; discriminate.
      + match goal with
        | |- context [ak8963SPIStartRead ?a ?r ?l ?m'] =>
            destruct (start_read_frame a r l m') as (_ & _ & evs3 & Ht3 & Hr3 & Hf3)
        end.
        unfold set_state; cbn [fst snd trace].
        exists (evs3 ++ EvReadRegister MPU_RA_EXT_SENS_DATA_00 (len (queuedRead m)) false
                  :: evs2 ++ evs1).
        split; [ rewrite Ht3, Ht2, Ht1, Hq1; solve_trace | ].
        split; [ solve_calm | ].
        split.
        { rewrite restarts_app. cbn [restarts]. rewrite restarts_app, Hr3, Hr2, Hr1.
          destruct retry; lia. }
        intros ? ?; discriminate.
    - rewrite restart_gate_closed by (auto || assumption). cbn [fst snd].
      exists evs1. repeat split; try assumption.
      + rewrite Hr1. destruct retry; lia.
      + discriminate.
      + discriminate. }
  destruct (Z.eq_dec (state m) WAITING_FOR_DATA) as [H2 | H2].
  { destruct (Z.eq_dec (fst (ak8963SPIQueuedReadTimeRemaining m)) 0) as [Hz | Hnz].
    - rewrite restart_WAITING_FOR_DATA by assumption. cbv zeta.
      exists (EvReadRegister MPU_RA_EXT_SENS_DATA_00 (len (queuedRead m)) false
                :: evs2 ++ evs1).
      match goal with |- context [if ?c then _ else _] => destruct c end;
        unfold set_state; cbn [fst snd trace queuedRead].
      + split; [ rewrite Ht2, Ht1, Hq1; solve_trace | ].
        split; [ solve_calm | ].
        split; [ cbn [restarts]; rewrite restarts_app, Hr2, Hr1; destruct retry; lia | ].
        intros ? ?; discriminate.
      + split; [ rewrite Ht2, Ht1, Hq1; solve_trace | ].
        split; [ solve_calm | ].
        split; [ cbn [restarts]; rewrite restarts_app, Hr2, Hr1; destruct retry; lia | ].
        intros _ _. split; [ rewrite Hq2; reflexivity | left; reflexivity ].
    - rewrite restart_gate_closed by (auto || assumption). cbn [fst snd].
      exists evs1. repeat split; try assumption.
      + rewrite Hr1. destruct retry; lia.
      + discriminate.
      + discriminate. }
  rewrite restart_no_case by assumption. cbn [fst snd].
  exists []. split; [ reflexivity | ]. split; [ constructor | ].
  split; [ cbn; destruct retry; lia | ].
  intros ? ?; discriminate.
Qed.

(** With its fuel the body returns: one unit is enough once [retry] is
    spent, two before. *)
Lemma ak8963Read_restart_returns {W : Type} {P : Platform W}
  (fuel : nat) (magData : magData_t) (m : machine W) :
  (exists out, fst (ak8963Read_restart (S fuel) false magData m) = Some out) /\
  (exists out, fst (ak8963Read_restart (S (S fuel)) true magData m) = Some out).
Proof.
  assert (Hfalse : forall f m', exists out,
             fst (ak8963Read_restart (S f) false magData m') = Some out).
  { intros f m'.
    destruct (Z.eq_dec (state m') CHECK_STATUS) as [H0 | H0];
      [ rewrite restart_CHECK_STATUS by assumption; eexists; reflexivity | ].
    destruct (Z.eq_dec (fst (ak8963SPIQueuedReadTimeRemaining m')) 0) as [Hz | Hnz].
    - destruct (Z.eq_dec (state m') WAITING_FOR_STATUS) as [H1 | H1].
      { rewrite restart_WAITING_FOR_STATUS by assumption. cbv zeta.
        match goal with |- context [if ?c then _ else _] => destruct c end;
          eexists; reflexivity. }
      destruct (Z.eq_dec (state m') WAITING_FOR_DATA) as [H2 | H2].
      { rewrite restart_WAITING_FOR_DATA by assumption. cbv zeta.
        match goal with |- context [if ?c then _ else _] => destruct c end;
          eexists; reflexivity. }
      rewrite restart_no_case by assumption. eexists; reflexivity.
    - destruct (Z.eq_dec (state m') WAITING_FOR_STATUS) as [H1 | H1];
        [ rewrite restart_gate_closed by auto; eexists; reflexivity | ].
      destruct (Z.eq_dec (state m') WAITING_FOR_DATA) as [H2 | H2];
        [ rewrite restart_gate_closed by auto; eexists; reflexivity | ].
      rewrite restart_no_case by assumption. eexists; reflexivity. }
  split; [ apply Hfalse | ].
  destruct (Z.eq_dec (state m) CHECK_STATUS) as [H0 | H0];
    [ rewrite restart_CHECK_STATUS by assumption; eexists; reflexivity | ].
  destruct (Z.eq_dec (fst (ak8963SPIQueuedReadTimeRemaining m)) 0) as [Hz | Hnz].
  - destruct (Z.eq_dec (state m) WAITING_FOR_STATUS) as [H1 | H1].
    { rewrite restart_WAITING_FOR_STATUS by assumption. cbv zeta.
      match goal with |- context [if ?c then _ else _] => destruct c end;
        [ apply Hfalse | eexists; reflexivity ]. }
    destruct (Z.eq_dec (state m) WAITING_FOR_DATA) as [H2 | H2].
    { rewrite restart_WAITING_FOR_DATA by assumption. cbv zeta.
      match goal with |- context [if ?c then _ else _] => destruct c end;
        eexists; reflexivity. }
    rewrite restart_no_case by assumption. eexists; reflexivity.
  - destruct (Z.eq_dec (state m) WAITING_FOR_STATUS) as [H1 | H1];
      [ rewrite restart_gate_closed by auto; eexists; reflexivity | ].
    destruct (Z.eq_dec (state m) WAITING_FOR_DATA) as [H2 | H2];
      [ rewrite restart_gate_closed by auto; eexists; reflexivity | ].
    rewrite restart_no_case by assumption. eexists; reflexivity.
Qed.

(** ** The queued reader: its contract *)

(** The trailing-status test of both readers looks at bits 0 and 1: the mask
    named for the overflow flag is 0x03. *)
Lemma status2_test_is_bits_0_1 (b : byte) :
  negb (Z.land (u8 b) STATUS2_DATA_ERROR =? 0)
  || negb (Z.land (u8 b) STATUS2_MAG_SENSOR_OVERFLOW =? 0)
  = negb (Z.land (u8 b) 3 =? 0).
Proof. destruct b; vm_compute; reflexivity. Qed.

(** C1, on the code: when the WaitingForData state completes its read and the
    trailing status byte is rejected, the invocation returns no sample and
    the reader's state is still WaitingForData; it has not been reset to
    CheckStatus. *)
Theorem rejected_data_keeps_WAITING_FOR_DATA {W : Type} {P : Platform W}
  (fuel : nat) (retry : bool) (magData : magData_t) (m : machine W) :
  state m = WAITING_FOR_DATA ->
  fst (ak8963SPIQueuedReadTimeRemaining m) = 0 ->
  let cr := ak8963SPICompleteRead (snd (ak8963SPIQueuedReadTimeRemaining m)) in
  let status2 := u8 (buf_at (snd (fst cr)) 6) in
  Z.land status2 STATUS2_DATA_ERROR <> 0
  \/ Z.land status2 STATUS2_MAG_SENSOR_OVERFLOW <> 0 ->
  let r := ak8963Read_restart (S fuel) retry magData m in
  fst r = Some (false, magData) /\
  state (snd r) = WAITING_FOR_DATA /\
  state (snd r) <> CHECK_STATUS.
Proof.
  intros Hst Hrem cr status2 Hbad r. subst r.
  rewrite restart_WAITING_FOR_DATA by assumption. cbv zeta.
  fold cr. fold status2.
  assert (Hc : negb (Z.land status2 STATUS2_DATA_ERROR =? 0)
               || negb (Z.land status2 STATUS2_MAG_SENSOR_OVERFLOW =? 0) = true).
  { apply orb_true_iff.
    destruct Hbad as [Hbad | Hbad]; [ left | right ];
      apply negb_true_iff, Z.eqb_neq; exact Hbad. }
  rewrite Hc. cbn [fst snd].
  destruct (complete_read_frame (snd (ak8963SPIQueuedReadTimeRemaining m)))
    as (_ & _ & Hs2 & _).
  destruct (time_remaining_frame m) as (_ & Hs1 & _).
  fold cr in Hs2.
  assert (Hstate : state (snd cr) = WAITING_FOR_DATA) by (rewrite Hs2, Hs1; exact Hst).
  split; [ reflexivity | ]. split; [ exact Hstate | ].
  rewrite Hstate. discriminate.
Qed.

Lemma rejected_data_keeps_WAITING_FOR_DATA_witness :
  let m := sim_machine {| waiting := true; len := 7; readStartedAt := 1000 |}
             WAITING_FOR_DATA 9000
             [(true, [x00; x01; x00; x02; x00; x03; x02])] [] in
  let cr := ak8963SPICompleteRead (snd (ak8963SPIQueuedReadTimeRemaining m)) in
  let r := ak8963Read_restart 2 true magData_init m in
  (state m = WAITING_FOR_DATA /\
   fst (ak8963SPIQueuedReadTimeRemaining m) = 0 /\
   u8 (buf_at (snd (fst cr)) 6) = 2) /\
  fst r = Some (false, magData_init) /\
  state (snd r) = WAITING_FOR_DATA /\
  state (snd r) <> CHECK_STATUS.
Proof.
  cbv zeta. split; [ repeat split | ].
  apply (rejected_data_keeps_WAITING_FOR_DATA 1 true magData_init
           (sim_machine {| waiting := true; len := 7; readStartedAt := 1000 |}
              WAITING_FOR_DATA 9000
              [(true, [x00; x01; x00; x02; x00; x03; x02])] [])).
  - reflexivity.
  - reflexivity.
  - left. vm_compute. discriminate.
Defined.

(** C2, on the code: a trailing status byte 0x04 (bit 2 alone) does not
    suppress the sample, in the queued reader and in the direct one; a
    byte 0x01 (neither bit 1 nor bit 2) does suppress it. *)
Theorem status2_0x04_is_not_suppressed :
  let queued (s2 : byte) :=
    fst (ak8963Read true spi_config 2 magData_init
           (sim_machine {| waiting := true; len := 7; readStartedAt := 1000 |}
              WAITING_FOR_DATA 9000
              [(true, [x00; x01; x00; x02; x00; x03; s2])] [])) in
  let direct (s2 : byte) :=
    fst (ak8963Read false i2c_config 0 magData_init
           (sim_machine queuedRead_init CHECK_STATUS 9000
              [(true, [x01]); (true, [x00; x01; x00; x02; x00; x03; s2])] [true])) in
  (option_map fst (queued x04) = Some true /\
   option_map fst (direct x04) = Some true) /\
  (option_map fst (queued x01) = Some false /\
   option_map fst (direct x01) = Some false) /\
  option_map (fun out => (snd out X, snd out Y, snd out Z_)) (queued x04)
  = Some (Some (-256), Some (-512), Some (-768)).
Proof.
  cbv zeta. repeat split; vm_compute; reflexivity.
Qed.

(** C8: with two units of fuel an invocation of the queued reader returns,
    whatever the machine and the platform, and its log holds at most one
    jump back to the switch; once [retry] is spent the body returns with one
    unit of fuel and no jump, and on a miss what it returns is "no sample"
    with the state set to CheckStatus. *)
Theorem ak8963Read_retries_at_most_once {W : Type} {P : Platform W}
  (cfg : ak8963Configuration_t W) (fuel : nat) (magData : magData_t) (m : machine W) :
  (let r := ak8963Read true cfg (S (S fuel)) magData m in
   (exists out, fst r = Some out) /\
   exists evs, trace (snd r) = evs ++ trace m /\ (restarts evs <= 1)%nat) /\
  (let r := ak8963Read_restart (S fuel) false magData m in
   (exists out, fst r = Some out) /\
   (exists evs, trace (snd r) = evs ++ trace m /\ restarts evs = 0%nat) /\
   (state m = WAITING_FOR_STATUS ->
    fst (ak8963SPIQueuedReadTimeRemaining m) = 0 ->
    let cr := ak8963SPICompleteRead (snd (ak8963SPIQueuedReadTimeRemaining m)) in
    let status := u8 (buf_at (snd (fst cr)) 0) in
    Z.land status STATUS1_DATA_READY = 0 ->
    Z.land status STATUS1_DATA_OVERRUN = 0 ->
    fst r = Some (false, magData) /\ state (snd r) = CHECK_STATUS)).
Proof.
  split; cbv zeta.
  - unfold ak8963Read. split.
    + apply (ak8963Read_restart_returns fuel magData m).
    + destruct (ak8963Read_restart_log (S (S fuel)) true magData m)
        as (evs & Ht & _ & Hr & _).
      exists evs. split; assumption.
  - split; [ apply (ak8963Read_restart_returns fuel magData m) | ]. split.
    + destruct (ak8963Read_restart_log (S fuel) false magData m)
        as (evs & Ht & _ & Hr & _).
      exists evs. split; [ assumption | lia ].
    + intros Hst Hrem Hready Hoverrun.
      rewrite restart_WAITING_FOR_STATUS by assumption. cbv zeta.
      rewrite Hready, Hoverrun. cbn. split; reflexivity.
Qed.

(** What a miss does with [retry] still available: one jump, the status read
    is queued again by the CheckStatus case, and the invocation ends in
    WaitingForStatus without a sample. *)
Lemma miss_requeues_status_read {W : Type} {P : Platform W}
  (fuel : nat) (magData : magData_t) (m : machine W) :
  state m = WAITING_FOR_STATUS ->
  fst (ak8963SPIQueuedReadTimeRemaining m) = 0 ->
  let cr := ak8963SPICompleteRead (snd (ak8963SPIQueuedReadTimeRemaining m)) in
  let status := u8 (buf_at (snd (fst cr)) 0) in
  Z.land status STATUS1_DATA_READY = 0 ->
  Z.land status STATUS1_DATA_OVERRUN = 0 ->
  let r := ak8963Read_restart (S (S fuel)) true magData m in
  fst r = Some (false, magData) /\ state (snd r) = WAITING_FOR_STATUS.
Proof.
  intros Hst Hrem cr status Hready Hoverrun r. subst r.
  rewrite restart_WAITING_FOR_STATUS by assumption. cbv zeta.
  fold cr. fold status. rewrite Hready, Hoverrun. cbn [Z.eqb andb].
  rewrite restart_CHECK_STATUS by reflexivity.
  split; reflexivity.
Qed.

(** C9: an invocation of the queued reader fills no buffer while
    [queuedRead.waiting] is true; and when it returns a sample, the queued
    transaction was completed in this invocation, with the flag already down
    when the buffer was filled, and the flag is down on return. *)
Theorem ak8963Read_no_sample_while_waiting {W : Type} {P : Platform W}
  (cfg : ak8963Configuration_t W) (fuel : nat) (magData : magData_t) (m : machine W) :
  let r := ak8963Read true cfg fuel magData m in
  exists evs,
    trace (snd r) = evs ++ trace m /\
    Forall filled_idle evs /\
    (forall magData', fst r = Some (true, magData') ->
       waiting (queuedRead (snd r)) = false /\
       In (EvReadRegister MPU_RA_EXT_SENS_DATA_00 (len (queuedRead m)) false) evs).
Proof.
  cbv zeta. unfold ak8963Read.
  destruct (ak8963Read_restart_log fuel true magData m) as (evs & Ht & Hf & _ & Hs).
  exists evs. split; [ exact Ht | ]. split; [ exact Hf | exact Hs ].
Qed.

(** C10: completing a queued read acknowledges on every call, so after a
    completion the reader's branches are decided by the status bits alone:
    in WaitingForStatus the data read is queued (the state becomes
    WaitingForData) exactly when the ready or the overrun bit is set, and in
    WaitingForData the invocation returns no sample exactly when the
    trailing-status test finds a bit. *)
Theorem complete_read_never_fails {W : Type} {P : Platform W}
  (fuel : nat) (retry : bool) (magData : magData_t) (m : machine W) :
  fst (ak8963SPIQueuedReadTimeRemaining m) = 0 ->
  let cr := ak8963SPICompleteRead (snd (ak8963SPIQueuedReadTimeRemaining m)) in
  let status := u8 (buf_at (snd (fst cr)) 0) in
  let status2 := u8 (buf_at (snd (fst cr)) 6) in
  let r := ak8963Read_restart (S fuel) retry magData m in
  (forall m' : machine W, fst (fst (ak8963SPICompleteRead m')) = true) /\
  (state m = WAITING_FOR_STATUS ->
   (state (snd r) = WAITING_FOR_DATA <->
    Z.land status STATUS1_DATA_READY <> 0 \/ Z.land status STATUS1_DATA_OVERRUN <> 0)) /\
  (state m = WAITING_FOR_DATA ->
   (fst r = Some (false, magData) <->
    Z.land status2 STATUS2_DATA_ERROR <> 0
    \/ Z.land status2 STATUS2_MAG_SENSOR_OVERFLOW <> 0)).
Proof.
  intros Hrem cr status status2 r.
  split; [ intros m'; apply (complete_read_frame m') | ].
  split; intros Hst; subst r.
  - rewrite restart_WAITING_FOR_STATUS by assumption. cbv zeta.
    fold cr. fold status.
    destruct (Z.eqb_spec (Z.land status STATUS1_DATA_READY) 0) as [Hr | Hr];
      destruct (Z.eqb_spec (Z.land status STATUS1_DATA_OVERRUN) 0) as [Ho | Ho];
      cbn [andb].
    + split; [ | intros [H | H]; contradiction ].
      intros Hend. exfalso. destruct retry.
      * destruct fuel as [ | fuel ].
        -- cbn in Hend. discriminate.
        -- rewrite restart_CHECK_STATUS in Hend by reflexivity.
           cbn in Hend. discriminate.
      * cbn in Hend. discriminate.
    + split; [ intros _; right; exact Ho | intros _; reflexivity ].
    + split; [ intros _; left; exact Hr | intros _; reflexivity ].
    + split; [ intros _; left; exact Hr | intros _; reflexivity ].
  - rewrite restart_WAITING_FOR_DATA by assumption. cbv zeta.
    fold cr. fold status2.
    destruct (Z.eqb_spec (Z.land status2 STATUS2_DATA_ERROR) 0) as [He | He];
      destruct (Z.eqb_spec (Z.land status2 STATUS2_MAG_SENSOR_OVERFLOW) 0) as [Ho | Ho];
      cbn [negb orb fst].
    + split; [ discriminate | intros [H | H]; contradiction ].
    + split; [ intros _; right; exact Ho | reflexivity ].
    + split; [ intros _; left; exact He | reflexivity ].
    + split; [ intros _; left; exact He | reflexivity ].
Qed.

Lemma complete_read_never_fails_witness :
  let m := sim_machine {| waiting := true; len := 7; readStartedAt := 1000 |}
             WAITING_FOR_DATA 9000
             [(true, [x00; x01; x00; x02; x00; x03; x00])] [] in
  fst (ak8963SPIQueuedReadTimeRemaining m) = 0 /\
  let cr := ak8963SPICompleteRead (snd (ak8963SPIQueuedReadTimeRemaining m)) in
  let status := u8 (buf_at (snd (fst cr)) 0) in
  let status2 := u8 (buf_at (snd (fst cr)) 6) in
  let r := ak8963Read_restart 1 true magData_init m in
  (forall m' : machine sim, fst (fst (ak8963SPICompleteRead m')) = true) /\
  (state m = WAITING_FOR_STATUS ->
   (state (snd r) = WAITING_FOR_DATA <->
    Z.land status STATUS1_DATA_READY <> 0 \/ Z.land status STATUS1_DATA_OVERRUN <> 0)) /\
  (state m = WAITING_FOR_DATA ->
   (fst r = Some (false, magData_init) <->
    Z.land status2 STATUS2_DATA_ERROR <> 0
    \/ Z.land status2 STATUS2_MAG_SENSOR_OVERFLOW <> 0)).
Proof.
  cbv zeta. split; [ reflexivity | ].
  apply (complete_read_never_fails 0 true magData_init
           (sim_machine {| waiting := true; len := 7; readStartedAt := 1000 |}
              WAITING_FOR_DATA 9000
              [(true, [x00; x01; x00; x02; x00; x03; x00])] [])).
  reflexivity.
Defined.

(** ** The direct reader *)

Section DirectReader.

Context {W : Type} {P : Platform W}.
Variables (cfg : ak8963Configuration_t W) (magData : magData_t) (m : machine W).

Lemma ak8963Read_direct_unfold :
  let r1 := status_read cfg (world m) in
  let r2 := data_read cfg (world m) in
  let r3 := rearm_write cfg (world m) in
  let status := u8 (buf_at (snd (fst r1)) 0) in
  let buf := snd (fst r2) in
  let status2 := u8 (buf_at buf 6) in
  let ev1 := EvTransportRead AK8963_MAG_I2C_ADDRESS AK8963_MAG_REG_STATUS1 1 in
  let ev2 := EvTransportRead AK8963_MAG_I2C_ADDRESS AK8963_MAG_REG_HXL 7 in
  let ev3 := EvTransportWrite AK8963_MAG_I2C_ADDRESS AK8963_MAG_REG_CNTL CNTL_MODE_ONCE in
  let after w evs :=
    {| queuedRead := queuedRead m; state := state m; magGain := magGain m;
       world := w; trace := evs ++ trace m |} in
  ak8963Read_direct cfg magData m =
  if negb (fst (fst r1)) || (Z.land status STATUS1_DATA_READY =? 0)
  then ((false, magData), after (snd r1) [ev1])
  else if negb (fst (fst r2))
          || negb (Z.land status2 STATUS2_DATA_ERROR =? 0)
          || negb (Z.land status2 STATUS2_MAG_SENSOR_OVERFLOW =? 0)
  then ((false, magData), after (snd r2) [ev2; ev1])
  else ((fst r3, decode buf (magGain m) magData), after (snd r3) [ev3; ev2; ev1]).
Proof.
  cbv zeta. unfold rearm_write, data_read, status_read.
  unfold ak8963Read_direct, config_read, config_write, call, log, ret, bind, get; cbn.
  destruct (read cfg AK8963_MAG_I2C_ADDRESS AK8963_MAG_REG_STATUS1 1 (world m))
    as [[ack1 buf1] w1]; cbn.
  match goal with |- (if ?c then _ else _) _ = _ => destruct c end; cbn;
    [ reflexivity | ].
  destruct (read cfg AK8963_MAG_I2C_ADDRESS AK8963_MAG_REG_HXL 7 w1)
    as [[ack2 buf2] w2]; cbn.
  match goal with |- (if ?c then _ else _) _ = _ => destruct c end; cbn;
    [ reflexivity | ].
  destruct (write cfg AK8963_MAG_I2C_ADDRESS AK8963_MAG_REG_CNTL CNTL_MODE_ONCE w2)
    as [ack3 w3]; reflexivity.
Qed.

(** C4, as the code has it: the invocation returns no sample without
    attempting the 7-byte read exactly when the status read fails or the
    data-ready bit (bit 0) is clear; it goes on to the 7-byte read exactly
    when the status read succeeds and the data-ready bit is set.  The
    data-overrun bit plays no part. *)
Theorem direct_reader_status_gate :
  let r1 := status_read cfg (world m) in
  let status := u8 (buf_at (snd (fst r1)) 0) in
  let out := ak8963Read_direct cfg magData m in
  let ev1 := EvTransportRead AK8963_MAG_I2C_ADDRESS AK8963_MAG_REG_STATUS1 1 in
  let ev2 := EvTransportRead AK8963_MAG_I2C_ADDRESS AK8963_MAG_REG_HXL 7 in
  (fst (fst r1) = false \/ Z.land status STATUS1_DATA_READY = 0 <->
   fst out = (false, magData) /\ trace (snd out) = ev1 :: trace m) /\
  (fst (fst r1) = true /\ Z.land status STATUS1_DATA_READY <> 0 <->
   exists evs, trace (snd out) = evs ++ ev2 :: ev1 :: trace m).
Proof.
  intros r1 status out ev1 ev2. subst out.
  pose proof ak8963Read_direct_unfold as E. cbv zeta in E. rewrite E. clear E.
  fold r1. fold status. fold ev1. fold ev2.
  assert (Hgate : negb (fst (fst r1)) || (Z.land status STATUS1_DATA_READY =? 0) = true
                  <-> fst (fst r1) = false \/ Z.land status STATUS1_DATA_READY = 0).
  { rewrite orb_true_iff, negb_true_iff, Z.eqb_eq. reflexivity. }
  destruct (negb (fst (fst r1)) || (Z.land status STATUS1_DATA_READY =? 0)).
  - cbn [fst snd trace app]. split; split.
    + intros _. split; reflexivity.
    + intros _. apply Hgate. reflexivity.
    + intros [Hack Hready]. destruct (proj1 Hgate eq_refl) as [H | H];
        [ rewrite H in Hack; discriminate | contradiction ].
    + intros [evs H]. exfalso. apply (f_equal (@length event)) in H.
      rewrite length_app in H. cbn [length] in H. lia.
  - assert (Hopen : fst (fst r1) = true /\ Z.land status STATUS1_DATA_READY <> 0).
    { split.
      - destruct (fst (fst r1)); [ reflexivity | ].
        exfalso. assert (false = true) by (apply Hgate; left; reflexivity).
        discriminate.
      - intros H. assert (false = true) by (apply Hgate; right; exact H).
        discriminate. }
    match goal with |- context [if ?c then _ else _] => destruct c end;
      cbn [fst snd trace app]; split; split.
    + intros H. apply Hgate in H. discriminate.
    + intros [_ H]. exfalso. apply (f_equal (@length event)) in H.
      cbn [length] in H. lia.
    + intros _. exists []. reflexivity.
    + intros _. exact Hopen.
    + intros H. apply Hgate in H. discriminate.
    + intros [_ H]. exfalso. apply (f_equal (@length event)) in H.
      cbn [length] in H. lia.
    + intros _. eexists [_]. reflexivity.
    + intros _. exact Hopen.
Qed.

(** C3, as the code has it: when both reads succeed, the data-ready bit is
    set and the trailing-status test finds no bit, the decoded sample is
    stored into [magData] and the flag the invocation returns is the
    acknowledgement of the re-arm write: a failed re-arm write returns
    false. *)
Theorem direct_reader_returns_rearm_ack :
  let r1 := status_read cfg (world m) in
  let r2 := data_read cfg (world m) in
  let r3 := rearm_write cfg (world m) in
  let status := u8 (buf_at (snd (fst r1)) 0) in
  let buf := snd (fst r2) in
  let status2 := u8 (buf_at buf 6) in
  fst (fst r1) = true ->
  Z.land status STATUS1_DATA_READY <> 0 ->
  fst (fst r2) = true ->
  Z.land status2 STATUS2_DATA_ERROR = 0 ->
  Z.land status2 STATUS2_MAG_SENSOR_OVERFLOW = 0 ->
  fst (ak8963Read_direct cfg magData m) = (fst r3, decode buf (magGain m) magData).
Proof.
  intros r1 r2 r3 status buf status2 Hack1 Hready Hack2 Herr Hovf.
  pose proof ak8963Read_direct_unfold as E. cbv zeta in E. rewrite E. clear E.
  fold r1. fold r2. fold r3. fold status. fold buf. fold status2.
  rewrite Hack1, Hack2, Herr, Hovf.
  destruct (Z.eqb_spec (Z.land status STATUS1_DATA_READY) 0) as [Hr | Hr];
    [ contradiction | ].
  reflexivity.
Qed.

End DirectReader.

Lemma direct_reader_returns_rearm_ack_witness :
  let m := sim_machine queuedRead_init CHECK_STATUS 9000
             [(true, [x01]); (true, [x00; x01; x00; x02; x00; x03; x00])] [true] in
  let out := fst (ak8963Read_direct i2c_config magData_init m) in
  fst out = true /\
  (snd out X, snd out Y, snd out Z_) = (Some (-256), Some (-512), Some (-768)).
Proof.
  cbv zeta.
  assert (H := direct_reader_returns_rearm_ack i2c_config magData_init
                 (sim_machine queuedRead_init CHECK_STATUS 9000
                    [(true, [x01]); (true, [x00; x01; x00; x02; x00; x03; x00])]
                    [true])).
  cbv zeta in H.
  rewrite H;
    [ split; vm_compute; reflexivity
    | reflexivity | vm_compute; discriminate | reflexivity | reflexivity | reflexivity ].
Defined.

(** C3 as stated fails: both reads succeed, the status bytes are clean, the
    re-arm write is not acknowledged, and the invocation returns "no
    sample" although the decoded sample is in [magData]. *)
Lemma failed_rearm_returns_no_sample :
  let m := sim_machine queuedRead_init CHECK_STATUS 9000
             [(true, [x01]); (true, [x00; x01; x00; x02; x00; x03; x00])] [false] in
  let r := ak8963Read false i2c_config 0 magData_init m in
  option_map fst (fst r) = Some false /\
  option_map (fun out => (snd out X, snd out Y, snd out Z_)) (fst r)
  = Some (Some (-256), Some (-512), Some (-768)) /\
  trace (snd r) =
    [EvTransportWrite AK8963_MAG_I2C_ADDRESS AK8963_MAG_REG_CNTL CNTL_MODE_ONCE;
     EvTransportRead AK8963_MAG_I2C_ADDRESS AK8963_MAG_REG_HXL 7;
     EvTransportRead AK8963_MAG_I2C_ADDRESS AK8963_MAG_REG_STATUS1 1].
Proof.
  cbv zeta. repeat split; vm_compute; reflexivity.
Qed.

(** C4 as stated fails: the status read succeeds with the data-overrun bit
    alone (0x02), and the invocation returns no sample without attempting the
    7-byte read. *)
Lemma overrun_alone_is_not_read :
  let m := sim_machine queuedRead_init CHECK_STATUS 9000
             [(true, [x02]); (true, [x00; x01; x00; x02; x00; x03; x00])] [true] in
  let r := ak8963Read false i2c_config 0 magData_init m in
  Z.land (u8 x02) STATUS1_DATA_OVERRUN <> 0 /\
  option_map fst (fst r) = Some false /\
  trace (snd r) =
    [EvTransportRead AK8963_MAG_I2C_ADDRESS AK8963_MAG_REG_STATUS1 1] /\
  ~ In (EvTransportRead AK8963_MAG_I2C_ADDRESS AK8963_MAG_REG_HXL 7) (trace (snd r)).
Proof.
  cbv zeta. split; [ vm_compute; discriminate | ].
  split; [ vm_compute; reflexivity | ].
  split; [ vm_compute; reflexivity | ].
  vm_compute. intros [H | []]. discriminate.
Qed.

(** * Further properties of the driver *)

(** ** The queued-read slot, operation by operation *)

Lemma start_read_free {W : Type} {P : Platform W}
  (addr_ reg_ len_ : Z) (m : machine W) :
  waiting (queuedRead m) = false ->
  exists t m',
    ak8963SPIStartRead addr_ reg_ len_ m = (true, m') /\
    0 <= t < 4294967296 /\
    queuedRead m' = {| waiting := true; len := len_; readStartedAt := t |} /\
    state m' = state m /\ magGain m' = magGain m /\
    trace m' =
      [EvMicros t;
       EvWriteRegister MPU_RA_I2C_SLV0_CTRL (uint8 (Z.lor len_ 0x80));
       EvWriteRegister MPU_RA_I2C_SLV0_REG reg_;
       EvWriteRegister MPU_RA_I2C_SLV0_ADDR (uint8 (Z.lor addr_ READ_FLAG))]
      ++ trace m.
Proof.
  intros Hw.
  unfold ak8963SPIStartRead, bind, get. rewrite Hw.
  unfold set_len, verifympu9250WriteRegister, call_micros, set_readStartedAt,
    set_waiting, set_queuedRead, call, log, ret, bind, get; cbn.
  repeat platform_step.
  eexists _, _. split; [ reflexivity | ]. cbn.
  split; [ apply uint32_range | ]. repeat split.
Qed.

(** X1: A start request on a free slot is taken: the three slave-0 registers are
    written in order (address with the read flag, register, length with the
    enable bit), the clock is read, and the slot holds the length, that clock
    reading and a raised flag.  The reader's state and the gains are not
    touched. *)
Theorem ak8963SPIStartRead_takes_free_slot {W : Type} {P : Platform W}
  (addr_ reg_ len_ : Z) (m : machine W) :
  waiting (queuedRead m) = false ->
  exists t m',
    ak8963SPIStartRead addr_ reg_ len_ m = (true, m') /\
    0 <= t < 4294967296 /\
    queuedRead m' = {| waiting := true; len := len_; readStartedAt := t |} /\
    state m' = state m /\ magGain m' = magGain m /\
    trace m' =
      [EvMicros t;
       EvWriteRegister MPU_RA_I2C_SLV0_CTRL (uint8 (Z.lor len_ 0x80));
       EvWriteRegister MPU_RA_I2C_SLV0_REG reg_;
       EvWriteRegister MPU_RA_I2C_SLV0_ADDR (uint8 (Z.lor addr_ READ_FLAG))]
      ++ trace m.
Proof. exact (start_read_free addr_ reg_ len_ m). Qed.

Lemma ak8963SPIStartRead_takes_free_slot_witness :
  let m := sim_machine queuedRead_init CHECK_STATUS 4000 [] [] in
  exists t m',
    ak8963SPIStartRead AK8963_MAG_I2C_ADDRESS AK8963_MAG_REG_HXL 7 m = (true, m') /\
    0 <= t < 4294967296 /\
    queuedRead m' = {| waiting := true; len := 7; readStartedAt := t |} /\
    state m' = state m /\ magGain m' = magGain m /\
    trace m' =
      [EvMicros t;
       EvWriteRegister MPU_RA_I2C_SLV0_CTRL (uint8 (Z.lor 7 0x80));
       EvWriteRegister MPU_RA_I2C_SLV0_REG AK8963_MAG_REG_HXL;
       EvWriteRegister MPU_RA_I2C_SLV0_ADDR (uint8 (Z.lor AK8963_MAG_I2C_ADDRESS READ_FLAG))]
      ++ trace m.
Proof.
  cbv zeta. apply ak8963SPIStartRead_takes_free_slot. reflexivity.
Defined.

(** X2: the remaining-time check is an observer: the slot, the reader's state and
    the gains are as before, and what it returns lies in [0, 2^31). *)
Theorem time_remaining_observes {W : Type} {P : Platform W} (m : machine W) :
  let r := ak8963SPIQueuedReadTimeRemaining m in
  queuedRead (snd r) = queuedRead m /\
  state (snd r) = state m /\
  magGain (snd r) = magGain m /\
  0 <= fst r < 2147483648.
Proof.
  cbv zeta. destruct (time_remaining_frame m) as (Hq & Hs & Hg & _).
  repeat split; try assumption.
  - apply time_remaining_nonneg.
  - rewrite time_remaining_unfold.
    destruct (negb (waiting (queuedRead m))); [ lia | ]. cbv zeta.
    match goal with |- context [if ?c <? 0 then _ else _] =>
      destruct (Z.ltb_spec c 0) as [Hneg | Hpos]; [ lia | ];
      assert (Hup : c < 2147483648)
        by (unfold int32; Z.div_mod_to_equations; lia);
      rewrite uint32_small by lia; exact Hup
    end.
Qed.

Lemma complete_read_steps {W : Type} {P : Platform W} (m : machine W) :
  let tr := ak8963SPIQueuedReadTimeRemaining m in
  let w := if 0 <? fst tr then delayMicroseconds (fst tr) (world (snd tr))
           else world (snd tr) in
  let rd := mpu6500ReadRegister MPU_RA_EXT_SENS_DATA_00 (len (queuedRead m)) w in
  let r := ak8963SPICompleteRead m in
  fst r = (true, fst rd) /\
  world (snd r) = snd rd /\
  queuedRead (snd r) =
    {| waiting := false; len := len (queuedRead m);
       readStartedAt := readStartedAt (queuedRead m) |} /\
  trace (snd r) =
    EvReadRegister MPU_RA_EXT_SENS_DATA_00 (len (queuedRead m)) false
      :: (if 0 <? fst tr then [EvDelayMicroseconds (fst tr)] else [])
      ++ trace (snd tr).
Proof.
  cbv zeta. unfold ak8963SPICompleteRead, bind.
  destruct (time_remaining_frame m) as (Hq & _).
  destruct (ak8963SPIQueuedReadTimeRemaining m) as [r m1]. cbn [fst snd] in *.
  destruct (0 <? r).
  - unfold call_delayMicroseconds, set_waiting, set_queuedRead, mpu9250ReadRegister,
      call, log, ret, bind, get; cbn.
    destruct (mpu6500ReadRegister MPU_RA_EXT_SENS_DATA_00 (len (queuedRead m1))
                (delayMicroseconds r (world m1))) as [buf w'] eqn:E.
    rewrite <- Hq, E. repeat split.
  - unfold set_waiting, set_queuedRead, mpu9250ReadRegister,
      call, log, ret, bind, get; cbn.
    destruct (mpu6500ReadRegister MPU_RA_EXT_SENS_DATA_00 (len (queuedRead m1))
                (world m1)) as [buf w'] eqn:E.
    rewrite <- Hq, E. repeat split.
Qed.

(** X4: completing a queued read, step by step: it waits out exactly what the
    check says remains (no delay when nothing remains), lowers the flag
    keeping the recorded length and start time, then reads that many bytes
    from the first external-sensor register; the bytes are what the register
    read delivers. *)
Theorem ak8963SPICompleteRead_steps {W : Type} {P : Platform W} (m : machine W) :
  let tr := ak8963SPIQueuedReadTimeRemaining m in
  let w := if 0 <? fst tr then delayMicroseconds (fst tr) (world (snd tr))
           else world (snd tr) in
  let rd := mpu6500ReadRegister MPU_RA_EXT_SENS_DATA_00 (len (queuedRead m)) w in
  let r := ak8963SPICompleteRead m in
  fst r = (true, fst rd) /\
  world (snd r) = snd rd /\
  queuedRead (snd r) =
    {| waiting := false; len := len (queuedRead m);
       readStartedAt := readStartedAt (queuedRead m) |} /\
  trace (snd r) =
    EvReadRegister MPU_RA_EXT_SENS_DATA_00 (len (queuedRead m)) false
      :: (if 0 <? fst tr then [EvDelayMicroseconds (fst tr)] else [])
      ++ trace (snd tr).
Proof. exact (complete_read_steps m). Qed.

(** X5: completing with nothing outstanding reads the buffer all the same: no
    clock reading, no delay, one register read of the length last
    recorded. *)
Theorem ak8963SPICompleteRead_on_free_slot {W : Type} {P : Platform W} (m : machine W) :
  waiting (queuedRead m) = false ->
  let rd := mpu6500ReadRegister MPU_RA_EXT_SENS_DATA_00 (len (queuedRead m)) (world m) in
  let r := ak8963SPICompleteRead m in
  fst r = (true, fst rd) /\
  queuedRead (snd r) = queuedRead m /\
  trace (snd r) =
    EvReadRegister MPU_RA_EXT_SENS_DATA_00 (len (queuedRead m)) false :: trace m.
Proof.
  intros Hw. cbv zeta.
  destruct (complete_read_steps m) as (Hr & _ & Hq & Ht).
  rewrite (time_remaining_idle m Hw) in Hr, Ht. cbn [fst snd Z.ltb Z.compare] in Hr, Ht.
  split; [ exact Hr | ]. split; [ | exact Ht ].
  rewrite Hq. destruct (queuedRead m) as [wt l t]. cbn in Hw |- *. subst wt. reflexivity.
Qed.

Lemma ak8963SPICompleteRead_on_free_slot_witness :
  let m := sim_machine {| waiting := false; len := 7; readStartedAt := 100 |}
             WAITING_FOR_DATA 150 [(true, [x01; x02; x03; x04; x05; x06; x00])] [] in
  let rd := mpu6500ReadRegister MPU_RA_EXT_SENS_DATA_00 (len (queuedRead m)) (world m) in
  let r := ak8963SPICompleteRead m in
  fst r = (true, fst rd) /\
  queuedRead (snd r) = queuedRead m /\
  trace (snd r) =
    EvReadRegister MPU_RA_EXT_SENS_DATA_00 (len (queuedRead m)) false :: trace m.
Proof.
  cbv zeta.
  apply (ak8963SPICompleteRead_on_free_slot
           (sim_machine {| waiting := false; len := 7; readStartedAt := 100 |}
              WAITING_FOR_DATA 150 [(true, [x01; x02; x03; x04; x05; x06; x00])] [])).
  reflexivity.
Defined.

(** X6: A completion frees the slot: right after it nothing remains, without
    the clock being read, and the next start request is taken. *)
Theorem complete_then_start {W : Type} {P : Platform W}
  (addr_ reg_ len_ : Z) (m : machine W) :
  let m1 := snd (ak8963SPICompleteRead m) in
  ak8963SPIQueuedReadTimeRemaining m1 = (0, m1) /\
  fst (ak8963SPIStartRead addr_ reg_ len_ m1) = true /\
  len (queuedRead (snd (ak8963SPIStartRead addr_ reg_ len_ m1))) = len_ /\
  waiting (queuedRead (snd (ak8963SPIStartRead addr_ reg_ len_ m1))) = true.
Proof.
  cbv zeta.
  destruct (complete_read_frame m) as (_ & Hq & _).
  assert (Hw : waiting (queuedRead (snd (ak8963SPICompleteRead m))) = false)
    by (rewrite Hq; reflexivity).
  split; [ apply time_remaining_idle; exact Hw | ].
  destruct (ak8963SPIStartRead_when_idle addr_ reg_ len_ _ Hw)
    as (t & m' & E & Hq' & _).
  rewrite E. cbn [fst snd]. rewrite Hq'. repeat split.
Qed.

(** ** The queued reader, invocation by invocation *)

Section QueuedSteps.

Context {W : Type} {P : Platform W}.
Variables (fuel : nat) (retry : bool) (magData : magData_t) (m : machine W).

(** CheckStatus on a free slot. *)
Lemma step_CHECK_STATUS :
  state m = CHECK_STATUS ->
  waiting (queuedRead m) = false ->
  exists t m',
    ak8963Read_restart (S fuel) retry magData m = (Some (false, magData), m') /\
    queuedRead m' = {| waiting := true; len := 1; readStartedAt := t |} /\
    state m' = WAITING_FOR_STATUS /\ magGain m' = magGain m /\
    trace m' =
      [EvMicros t;
       EvWriteRegister MPU_RA_I2C_SLV0_CTRL (uint8 (Z.lor 1 0x80));
       EvWriteRegister MPU_RA_I2C_SLV0_REG AK8963_MAG_REG_STATUS1;
       EvWriteRegister MPU_RA_I2C_SLV0_ADDR (uint8 (Z.lor AK8963_MAG_I2C_ADDRESS READ_FLAG))]
      ++ trace m.
Proof.
  intros Hst Hw. rewrite restart_CHECK_STATUS by assumption.
  destruct (start_read_free AK8963_MAG_I2C_ADDRESS AK8963_MAG_REG_STATUS1 1 m Hw)
    as (t & m' & E & _ & Hq & _ & Hg & Ht).
  rewrite E. cbn [snd]. unfold set_state. cbn [snd].
  eexists t, _. split; [ reflexivity | ]. cbn. repeat split; assumption.
Qed.

(** WaitingForStatus, budget elapsed, ready or overrun set. *)
Lemma step_WAITING_FOR_STATUS_hit :
  state m = WAITING_FOR_STATUS ->
  fst (ak8963SPIQueuedReadTimeRemaining m) = 0 ->
  let cr := ak8963SPICompleteRead (snd (ak8963SPIQueuedReadTimeRemaining m)) in
  let status := u8 (buf_at (snd (fst cr)) 0) in
  Z.land status STATUS1_DATA_READY <> 0 \/ Z.land status STATUS1_DATA_OVERRUN <> 0 ->
  exists t m',
    ak8963Read_restart (S fuel) retry magData m = (Some (false, magData), m') /\
    queuedRead m' = {| waiting := true; len := 7; readStartedAt := t |} /\
    state m' = WAITING_FOR_DATA /\ magGain m' = magGain m /\
    trace m' =
      [EvMicros t;
       EvWriteRegister MPU_RA_I2C_SLV0_CTRL (uint8 (Z.lor 7 0x80));
       EvWriteRegister MPU_RA_I2C_SLV0_REG AK8963_MAG_REG_HXL;
       EvWriteRegister MPU_RA_I2C_SLV0_ADDR (uint8 (Z.lor AK8963_MAG_I2C_ADDRESS READ_FLAG))]
      ++ trace (snd cr).
Proof.
  intros Hst Hrem cr status Hhit.
  rewrite restart_WAITING_FOR_STATUS by assumption. cbv zeta. fold cr. fold status.
  assert (Hc : (Z.land status STATUS1_DATA_READY =? 0)
               && (Z.land status STATUS1_DATA_OVERRUN =? 0) = false).
  { apply andb_false_iff.
    destruct Hhit as [H | H]; [ left | right ]; apply Z.eqb_neq; exact H. }
  rewrite Hc.
  destruct (complete_read_frame (snd (ak8963SPIQueuedReadTimeRemaining m)))
    as (_ & Hq2 & _ & Hg2 & _).
  destruct (time_remaining_frame m) as (_ & _ & Hg1 & _).
  fold cr in Hq2, Hg2.
  assert (Hw : waiting (queuedRead (snd cr)) = false) by (rewrite Hq2; reflexivity).
  destruct (start_read_free AK8963_MAG_I2C_ADDRESS AK8963_MAG_REG_HXL 7 (snd cr) Hw)
    as (t & m' & E & _ & Hq & _ & Hg & Ht).
  rewrite E. cbn [snd]. unfold set_state. cbn [snd].
  eexists t, _. split; [ reflexivity | ]. cbn.
  repeat split; try assumption. rewrite Hg, Hg2, Hg1. reflexivity.
Qed.

(** WaitingForData, budget elapsed, trailing status accepted. *)
Lemma step_WAITING_FOR_DATA_accept :
  state m = WAITING_FOR_DATA ->
  fst (ak8963SPIQueuedReadTimeRemaining m) = 0 ->
  let cr := ak8963SPICompleteRead (snd (ak8963SPIQueuedReadTimeRemaining m)) in
  let buf := snd (fst cr) in
  let status2 := u8 (buf_at buf 6) in
  Z.land status2 STATUS2_DATA_ERROR = 0 ->
  Z.land status2 STATUS2_MAG_SENSOR_OVERFLOW = 0 ->
  let r := ak8963Read_restart (S fuel) retry magData m in
  fst r = Some (true, decode buf (magGain m) magData) /\
  state (snd r) = CHECK_STATUS /\
  queuedRead (snd r) =
    {| waiting := false; len := len (queuedRead m);
       readStartedAt := readStartedAt (queuedRead m) |} /\
  magGain (snd r) = magGain m /\
  trace (snd r) = trace (snd cr).
Proof.
  intros Hst Hrem cr buf status2 Herr Hovf r. subst r.
  rewrite restart_WAITING_FOR_DATA by assumption. cbv zeta.
  fold cr. fold buf. fold status2. rewrite Herr, Hovf. cbn [Z.eqb negb orb].
  destruct (complete_read_frame (snd (ak8963SPIQueuedReadTimeRemaining m)))
    as (_ & Hq2 & _ & Hg2 & _).
  destruct (time_remaining_frame m) as (Hq1 & _ & Hg1 & _).
  fold cr in Hq2, Hg2. unfold set_state. cbn [fst snd state queuedRead magGain trace].
  rewrite Hq2, Hq1, Hg2, Hg1. repeat split.
Qed.

End QueuedSteps.

(** The body keeps the tie between state and slot, whatever the fuel. *)
Lemma restart_keeps_queued_inv {W : Type} {P : Platform W} (fuel : nat) :
  forall (retry : bool) (magData : magData_t) (m : machine W),
  queued_inv m -> queued_inv (snd (ak8963Read_restart fuel retry magData m)).
Proof.
  induction fuel as [ | fuel IH ]; intros retry magData m Hinv; [ exact Hinv | ].
  destruct (time_remaining_frame m) as (Hq1 & Hs1 & _).
  destruct (complete_read_frame (snd (ak8963SPIQueuedReadTimeRemaining m)))
    as (_ & Hq2 & Hs2 & _).
  assert (Hfree : waiting (queuedRead
            (snd (ak8963SPICompleteRead (snd (ak8963SPIQueuedReadTimeRemaining m)))))
          = false) by (rewrite Hq2; reflexivity).
  destruct Hinv as [[Hst Hw] | [[Hst Hl] | [Hst Hl]]].
  - destruct (step_CHECK_STATUS fuel retry magData m Hst Hw)
      as (t & m' & E & Hq & Hs & _).
    rewrite E. cbn [snd]. right. left. rewrite Hq. split; [ exact Hs | reflexivity ].
  - destruct (Z.eq_dec (fst (ak8963SPIQueuedReadTimeRemaining m)) 0) as [Hz | Hnz].
    + rewrite restart_WAITING_FOR_STATUS by assumption. cbv zeta.
      match goal with |- context [if ?c then _ else _] => destruct c end.
      * destruct retry.
        -- apply IH. left. unfold set_state, log. cbn. split; [ reflexivity | exact Hfree ].
        -- left. unfold set_state. cbn. split; [ reflexivity | exact Hfree ].
      * destruct (start_read_free AK8963_MAG_I2C_ADDRESS AK8963_MAG_REG_HXL 7 _ Hfree)
          as (t & m' & E & _ & Hq & _).
        rewrite E. unfold set_state. cbn. right. right. rewrite Hq. split; reflexivity.
    + rewrite restart_gate_closed by auto. cbn [snd].
      right. left. rewrite Hs1, Hq1. split; assumption.
  - destruct (Z.eq_dec (fst (ak8963SPIQueuedReadTimeRemaining m)) 0) as [Hz | Hnz].
    + rewrite restart_WAITING_FOR_DATA by assumption. cbv zeta.
      match goal with |- context [if ?c then _ else _] => destruct c end.
      * cbn [snd]. right. right. rewrite Hs2, Hs1, Hq2, Hq1. cbn. split; assumption.
      * left. unfold set_state. cbn. split; [ reflexivity | exact Hfree ].
    + rewrite restart_gate_closed by auto. cbn [snd].
      right. right. rewrite Hs1, Hq1. split; assumption.
Qed.

(** A sample comes out of one place only. *)
Lemma restart_sample_source {W : Type} {P : Platform W}
  (fuel : nat) (retry : bool) (magData magData' : magData_t) (m : machine W) :
  fst (ak8963Read_restart fuel retry magData m) = Some (true, magData') ->
  let cr := ak8963SPICompleteRead (snd (ak8963SPIQueuedReadTimeRemaining m)) in
  let buf := snd (fst cr) in
  let status2 := u8 (buf_at buf 6) in
  state m = WAITING_FOR_DATA /\
  fst (ak8963SPIQueuedReadTimeRemaining m) = 0 /\
  Z.land status2 3 = 0 /\
  magData' = decode buf (magGain m) magData /\
  snd (ak8963Read_restart fuel retry magData m) = snd (set_state CHECK_STATUS (snd cr)).
Proof.
  intros Hres. cbv zeta.
  destruct fuel as [ | fuel ]; [ discriminate | ].
  destruct (Z.eq_dec (state m) CHECK_STATUS) as [H0 | H0];
    [ rewrite restart_CHECK_STATUS in Hres by assumption; discriminate | ].
  destruct (Z.eq_dec (fst (ak8963SPIQueuedReadTimeRemaining m)) 0) as [Hz | Hnz].
  - destruct (Z.eq_dec (state m) WAITING_FOR_STATUS) as [H1 | H1].
    { exfalso. rewrite restart_WAITING_FOR_STATUS in Hres by assumption.
      cbv zeta in Hres.
      match type of Hres with context [if ?c then _ else _] => destruct c end;
        [ | discriminate ].
      destruct retry; [ | discriminate ].
      destruct fuel as [ | fuel ]; [ discriminate | ].
      rewrite restart_CHECK_STATUS in Hres by reflexivity. discriminate. }
    destruct (Z.eq_dec (state m) WAITING_FOR_DATA) as [H2 | H2];
      [ | rewrite restart_no_case in Hres by assumption; discriminate ].
    rewrite restart_WAITING_FOR_DATA in Hres |- * by assumption. cbv zeta in Hres |- *.
    rewrite status2_test_is_bits_0_1 in Hres |- *.
    destruct (Z.eqb_spec
                (Z.land (u8 (buf_at (snd (fst (ak8963SPICompleteRead
                   (snd (ak8963SPIQueuedReadTimeRemaining m))))) 6)) 3) 0) as [Hb | Hb];
      cbn [negb] in Hres |- *; [ | discriminate ].
    cbn [fst snd] in Hres |- *. inversion Hres. repeat split; assumption.
  - exfalso.
    destruct (Z.eq_dec (state m) WAITING_FOR_STATUS) as [H1 | H1];
      [ rewrite restart_gate_closed in Hres by auto; discriminate | ].
    destruct (Z.eq_dec (state m) WAITING_FOR_DATA) as [H2 | H2];
      [ rewrite restart_gate_closed in Hres by auto; discriminate | ].
    rewrite restart_no_case in Hres by assumption. discriminate.
Qed.

(** While a read is outstanding the check reads the clock once and does
    nothing else. *)
Lemma time_remaining_waiting_run {W : Type} {P : Platform W} (m : machine W) :
  waiting (queuedRead m) = true ->
  snd (ak8963SPIQueuedReadTimeRemaining m) =
  {| queuedRead := queuedRead m; state := state m; magGain := magGain m;
     world := snd (micros (world m));
     trace := EvMicros (uint32 (fst (micros (world m)))) :: trace m |}.
Proof.
  intros Hw.
  unfold ak8963SPIQueuedReadTimeRemaining, call_micros, call, log, ret, bind, get.
  rewrite Hw. cbn [negb].
  destruct (micros (world m)) as [t w]. cbn.
  match goal with |- context [if ?c then _ else _] => destruct c end; reflexivity.
Qed.

Lemma time_remaining_early {W : Type} {P : Platform W} (m : machine W) (T now : Z) :
  waiting (queuedRead m) = true ->
  readStartedAt (queuedRead m) = uint32 T ->
  fst (micros (world m)) = now ->
  T <= now < T + 8000 ->
  fst (ak8963SPIQueuedReadTimeRemaining m) = T + 8000 - now.
Proof.
  intros Hw HT Hnow Hrange.
  rewrite time_remaining_unfold, Hw, HT, Hnow. cbn [negb]. cbv zeta.
  rewrite (clock_difference T now) by lia.
  rewrite int32_small by lia.
  destruct (Z.ltb_spec (8000 - (now - T)) 0); [ lia | ].
  rewrite uint32_small by lia. lia.
Qed.

(** X7: invoked in a waiting state before the budget has elapsed, the queued
    reader reads the clock and returns: no sample, no register access, and
    the slot and the state exactly as they were. *)
Theorem ak8963Read_before_budget {W : Type} {P : Platform W}
  (cfg : ak8963Configuration_t W) (fuel : nat) (magData : magData_t)
  (m : machine W) (T now : Z) :
  state m = WAITING_FOR_STATUS \/ state m = WAITING_FOR_DATA ->
  waiting (queuedRead m) = true ->
  readStartedAt (queuedRead m) = uint32 T ->
  fst (micros (world m)) = now ->
  T <= now < T + 8000 ->
  let r := ak8963Read true cfg (S fuel) magData m in
  fst r = Some (false, magData) /\
  queuedRead (snd r) = queuedRead m /\
  state (snd r) = state m /\
  trace (snd r) = EvMicros (uint32 now) :: trace m.
Proof.
  intros Hst Hw HT Hnow Hrange r. subst r. unfold ak8963Read.
  assert (Hrem : fst (ak8963SPIQueuedReadTimeRemaining m) <> 0)
    by (rewrite (time_remaining_early m T now) by assumption; lia).
  rewrite restart_gate_closed by assumption. cbn [fst snd].
  rewrite (time_remaining_waiting_run m Hw). cbn. rewrite Hnow. repeat split.
Qed.

Lemma ak8963Read_before_budget_witness :
  let m := sim_machine {| waiting := true; len := 7; readStartedAt := 4294967000 |}
             WAITING_FOR_DATA 4294967200 [(true, [x00; x00; x00; x00; x00; x00; x00])] [] in
  let r := ak8963Read true spi_config 2 magData_init m in
  fst r = Some (false, magData_init) /\
  queuedRead (snd r) = queuedRead m /\
  state (snd r) = state m /\
  trace (snd r) = EvMicros (uint32 4294967200) :: trace m.
Proof.
  cbv zeta.
  apply (ak8963Read_before_budget spi_config 1 magData_init
           (sim_machine {| waiting := true; len := 7; readStartedAt := 4294967000 |}
              WAITING_FOR_DATA 4294967200
              [(true, [x00; x00; x00; x00; x00; x00; x00])] [])
           4294967000 4294967200);
    [ right; reflexivity | reflexivity | reflexivity | reflexivity | lia ].
Defined.

(** X8: the tie between state and slot holds at every return of the queued
    reader, and a change of world between invocations does not break it: the
    state stays one of the three enumerators, a status byte is always taken
    from a 1-byte read and a trailing status byte from a 7-byte read. *)
Theorem ak8963Read_keeps_queued_inv {W : Type} {P : Platform W}
  (cfg : ak8963Configuration_t W) (fuel : nat) (magData : magData_t)
  (m : machine W) (w : W) :
  queued_inv m ->
  let m' := snd (ak8963Read true cfg fuel magData m) in
  queued_inv m' /\
  queued_inv (with_world m' w) /\
  (state m' = CHECK_STATUS \/ state m' = WAITING_FOR_STATUS
   \/ state m' = WAITING_FOR_DATA).
Proof.
  intros Hinv m'. subst m'. unfold ak8963Read.
  pose proof (restart_keeps_queued_inv fuel true magData m Hinv) as H.
  split; [ exact H | ]. split; [ exact H | ].
  destruct H as [[Hs _] | [[Hs _] | [Hs _]]]; auto.
Qed.

Lemma ak8963Read_keeps_queued_inv_witness :
  let m := sim_machine queuedRead_init CHECK_STATUS 100 [] [] in
  let m' := snd (ak8963Read true spi_config 2 magData_init m) in
  queued_inv m' /\
  queued_inv (with_world m' {| sim_clock := 9000; sim_reads := []; sim_acks := [] |}) /\
  (state m' = CHECK_STATUS \/ state m' = WAITING_FOR_STATUS
   \/ state m' = WAITING_FOR_DATA).
Proof.
  cbv zeta.
  apply (ak8963Read_keeps_queued_inv spi_config 2 magData_init
           (sim_machine queuedRead_init CHECK_STATUS 100 [] [])).
  left. split; reflexivity.
Defined.

(** X9: when the queued reader returns a sample, the invocation started in
    WaitingForData with the budget elapsed, the last thing it did on the bus
    was the 7-byte read that fills the buffer (flag down), bits 0 and 1 of the
    trailing byte are clear, the sample is the decoding of that buffer with
    the stored gains, and the reader is back in CheckStatus with the slot
    free. *)
Theorem ak8963Read_sample_source {W : Type} {P : Platform W}
  (cfg : ak8963Configuration_t W) (fuel : nat) (magData magData' : magData_t)
  (m : machine W) :
  queued_inv m ->
  fst (ak8963Read true cfg fuel magData m) = Some (true, magData') ->
  let cr := ak8963SPICompleteRead (snd (ak8963SPIQueuedReadTimeRemaining m)) in
  let buf := snd (fst cr) in
  let m' := snd (ak8963Read true cfg fuel magData m) in
  state m = WAITING_FOR_DATA /\
  fst (ak8963SPIQueuedReadTimeRemaining m) = 0 /\
  Z.land (u8 (buf_at buf 6)) 3 = 0 /\
  magData' = decode buf (magGain m) magData /\
  state m' = CHECK_STATUS /\
  waiting (queuedRead m') = false /\
  exists rest,
    trace m' = EvReadRegister MPU_RA_EXT_SENS_DATA_00 7 false :: rest.
Proof.
  intros Hinv Hres cr buf m'. subst m'. unfold ak8963Read in *.
  destruct (restart_sample_source fuel true magData magData' m Hres)
    as (Hst & Hrem & Hbits & Hdec & Hend).
  fold cr in Hbits, Hdec, Hend. fold buf in Hbits, Hdec.
  rewrite Hend. unfold set_state. cbn [snd state queuedRead trace].
  destruct (complete_read_frame (snd (ak8963SPIQueuedReadTimeRemaining m)))
    as (_ & Hq2 & _ & _ & evs & Ht2 & _).
  destruct (time_remaining_frame m) as (Hq1 & _).
  fold cr in Hq2, Ht2.
  assert (Hlen : len (queuedRead m) = 7).
  { destruct Hinv as [[Hs _] | [[Hs _] | [_ Hl]]];
      [ rewrite Hst in Hs; discriminate | rewrite Hst in Hs; discriminate | exact Hl ]. }
  repeat split; try assumption.
  - rewrite Hq2. reflexivity.
  - eexists. rewrite Ht2, Hq1, Hlen. reflexivity.
Qed.

Lemma ak8963Read_sample_source_witness :
  let m := sim_machine {| waiting := true; len := 7; readStartedAt := 1000 |}
             WAITING_FOR_DATA 9000
             [(true, [x00; x01; x00; x02; x00; x03; x00])] [] in
  let cr := ak8963SPICompleteRead (snd (ak8963SPIQueuedReadTimeRemaining m)) in
  let buf := snd (fst cr) in
  let m' := snd (ak8963Read true spi_config 2 magData_init m) in
  state m = WAITING_FOR_DATA /\
  fst (ak8963SPIQueuedReadTimeRemaining m) = 0 /\
  Z.land (u8 (buf_at buf 6)) 3 = 0 /\
  decode buf (magGain m) magData_init = decode buf (magGain m) magData_init /\
  state m' = CHECK_STATUS /\
  waiting (queuedRead m') = false /\
  exists rest,
    trace m' = EvReadRegister MPU_RA_EXT_SENS_DATA_00 7 false :: rest.
Proof.
  cbv zeta.
  apply (ak8963Read_sample_source spi_config 2 magData_init _
           (sim_machine {| waiting := true; len := 7; readStartedAt := 1000 |}
              WAITING_FOR_DATA 9000
              [(true, [x00; x01; x00; x02; x00; x03; x00])] [])).
  - right. right. split; reflexivity.
  - reflexivity.
Defined.

(** X10: in WaitingForData with the slot already free (where a rejected buffer
    leaves the reader), an invocation reads no clock, waits for nothing and
    queues nothing: it reads the same external-sensor registers again and
    accepts or rejects what it finds. *)
Theorem ak8963Read_rereads_after_rejection {W : Type} {P : Platform W}
  (cfg : ak8963Configuration_t W) (fuel : nat) (magData : magData_t) (m : machine W) :
  state m = WAITING_FOR_DATA ->
  waiting (queuedRead m) = false ->
  let rd := mpu6500ReadRegister MPU_RA_EXT_SENS_DATA_00 (len (queuedRead m)) (world m) in
  let buf := fst rd in
  let r := ak8963Read true cfg (S fuel) magData m in
  trace (snd r) =
    EvReadRegister MPU_RA_EXT_SENS_DATA_00 (len (queuedRead m)) false :: trace m /\
  queuedRead (snd r) = queuedRead m /\
  (if Z.land (u8 (buf_at buf 6)) 3 =? 0
   then fst r = Some (true, decode buf (magGain m) magData)
        /\ state (snd r) = CHECK_STATUS
   else fst r = Some (false, magData) /\ state (snd r) = WAITING_FOR_DATA).
Proof.
  intros Hst Hw rd buf r. subst r. unfold ak8963Read.
  assert (Hrem : fst (ak8963SPIQueuedReadTimeRemaining m) = 0)
    by (rewrite (time_remaining_idle m Hw); reflexivity).
  rewrite restart_WAITING_FOR_DATA by assumption. cbv zeta.
  rewrite status2_test_is_bits_0_1.
  rewrite (time_remaining_idle m Hw). cbn [snd].
  destruct (complete_read_steps m) as (Hr & _ & Hq & Ht).
  destruct (complete_read_frame m) as (_ & _ & Hs & _).
  rewrite (time_remaining_idle m Hw) in Hr, Ht.
  cbn [fst snd Z.ltb Z.compare app] in Hr, Ht.
  fold rd in Hr. rewrite Hr. cbn [fst snd]. fold buf.
  assert (Hq' : queuedRead (snd (ak8963SPICompleteRead m)) = queuedRead m).
  { rewrite Hq. destruct (queuedRead m) as [wt l t]. cbn in Hw |- *.
    subst wt. reflexivity. }
  destruct (Z.land (u8 (buf_at buf 6)) 3 =? 0); cbn [negb fst snd];
    unfold set_state; cbn [snd trace queuedRead state].
  - split; [ exact Ht | ]. split; [ exact Hq' | ]. split; reflexivity.
  - split; [ exact Ht | ]. split; [ exact Hq' | ].
    split; [ reflexivity | rewrite Hs; exact Hst ].
Qed.

Lemma ak8963Read_rereads_after_rejection_witness :
  let m := sim_machine {| waiting := false; len := 7; readStartedAt := 1000 |}
             WAITING_FOR_DATA 1001
             [(true, [x00; x01; x00; x02; x00; x03; x01])] [] in
  let rd := mpu6500ReadRegister MPU_RA_EXT_SENS_DATA_00 (len (queuedRead m)) (world m) in
  let buf := fst rd in
  let r := ak8963Read true spi_config 1 magData_init m in
  trace (snd r) =
    EvReadRegister MPU_RA_EXT_SENS_DATA_00 (len (queuedRead m)) false :: trace m /\
  queuedRead (snd r) = queuedRead m /\
  (if Z.land (u8 (buf_at buf 6)) 3 =? 0
   then fst r = Some (true, decode buf (magGain m) magData_init)
        /\ state (snd r) = CHECK_STATUS
   else fst r = Some (false, magData_init) /\ state (snd r) = WAITING_FOR_DATA).
Proof.
  cbv zeta.
  apply (ak8963Read_rereads_after_rejection spi_config 0 magData_init
           (sim_machine {| waiting := false; len := 7; readStartedAt := 1000 |}
              WAITING_FOR_DATA 1001
              [(true, [x00; x01; x00; x02; x00; x03; x01])] []));
    reflexivity.
Defined.

(** X11: A miss is repaired inside the invocation: when the completed status byte
    has neither bit, the reader jumps back once and the CheckStatus case
    queues the 1-byte status read again, so the invocation ends in
    WaitingForStatus with a fresh read outstanding and no sample. *)
Theorem ak8963Read_miss_requeues {W : Type} {P : Platform W}
  (cfg : ak8963Configuration_t W) (fuel : nat) (magData : magData_t) (m : machine W) :
  state m = WAITING_FOR_STATUS ->
  fst (ak8963SPIQueuedReadTimeRemaining m) = 0 ->
  let cr := ak8963SPICompleteRead (snd (ak8963SPIQueuedReadTimeRemaining m)) in
  let status := u8 (buf_at (snd (fst cr)) 0) in
  Z.land status STATUS1_DATA_READY = 0 ->
  Z.land status STATUS1_DATA_OVERRUN = 0 ->
  let r := ak8963Read true cfg (S (S fuel)) magData m in
  exists t,
    fst r = Some (false, magData) /\
    state (snd r) = WAITING_FOR_STATUS /\
    queuedRead (snd r) = {| waiting := true; len := 1; readStartedAt := t |} /\
    trace (snd r) =
      [EvMicros t;
       EvWriteRegister MPU_RA_I2C_SLV0_CTRL (uint8 (Z.lor 1 0x80));
       EvWriteRegister MPU_RA_I2C_SLV0_REG AK8963_MAG_REG_STATUS1;
       EvWriteRegister MPU_RA_I2C_SLV0_ADDR
         (uint8 (Z.lor AK8963_MAG_I2C_ADDRESS READ_FLAG));
       EvRestart]
      ++ trace (snd cr).
Proof.
  intros Hst Hrem cr status Hready Hoverrun r. subst r. unfold ak8963Read.
  rewrite restart_WAITING_FOR_STATUS by assumption. cbv zeta.
  fold cr. fold status. rewrite Hready, Hoverrun. cbn [Z.eqb andb].
  destruct (complete_read_frame (snd (ak8963SPIQueuedReadTimeRemaining m)))
    as (_ & Hq2 & _).
  fold cr in Hq2.
  match goal with
  | |- context [ak8963Read_restart (S fuel) false magData ?m1] =>
      destruct (step_CHECK_STATUS fuel false magData m1) as (t & m' & E & Hq & Hs & _ & Ht);
        [ reflexivity | cbn; rewrite Hq2; reflexivity | ]
  end.
  rewrite E. cbn [fst snd]. exists t. repeat split; try assumption.
Qed.

Lemma ak8963Read_miss_requeues_witness :
  let m := sim_machine {| waiting := true; len := 1; readStartedAt := 1000 |}
             WAITING_FOR_STATUS 9000 [(true, [x00])] [] in
  let cr := ak8963SPICompleteRead (snd (ak8963SPIQueuedReadTimeRemaining m)) in
  let r := ak8963Read true spi_config 2 magData_init m in
  exists t,
    fst r = Some (false, magData_init) /\
    state (snd r) = WAITING_FOR_STATUS /\
    queuedRead (snd r) = {| waiting := true; len := 1; readStartedAt := t |} /\
    trace (snd r) =
      [EvMicros t;
       EvWriteRegister MPU_RA_I2C_SLV0_CTRL (uint8 (Z.lor 1 0x80));
       EvWriteRegister MPU_RA_I2C_SLV0_REG AK8963_MAG_REG_STATUS1;
       EvWriteRegister MPU_RA_I2C_SLV0_ADDR
         (uint8 (Z.lor AK8963_MAG_I2C_ADDRESS READ_FLAG));
       EvRestart]
      ++ trace (snd cr).
Proof.
  cbv zeta.
  apply (ak8963Read_miss_requeues spi_config 0 magData_init
           (sim_machine {| waiting := true; len := 1; readStartedAt := 1000 |}
              WAITING_FOR_STATUS 9000 [(true, [x00])] []));
    reflexivity.
Defined.

(** X12: one sample takes three invocations: from CheckStatus with a free slot,
    the first queues the status read, the second (budget elapsed, ready or
    overrun set) queues the 7-byte read, and the third (budget elapsed,
    trailing status accepted) returns the decoded buffer and is back in
    CheckStatus with the slot free.  The world may change between
    invocations. *)
Theorem ak8963Read_three_ticks {W : Type} {P : Platform W}
  (cfg : ak8963Configuration_t W) (magData : magData_t) (m0 : machine W) (w1 w2 : W) :
  state m0 = CHECK_STATUS ->
  waiting (queuedRead m0) = false ->
  let r1 := ak8963Read true cfg 2 magData m0 in
  let m1 := with_world (snd r1) w1 in
  fst (ak8963SPIQueuedReadTimeRemaining m1) = 0 ->
  let cr1 := ak8963SPICompleteRead (snd (ak8963SPIQueuedReadTimeRemaining m1)) in
  let status := u8 (buf_at (snd (fst cr1)) 0) in
  Z.land status STATUS1_DATA_READY <> 0 \/ Z.land status STATUS1_DATA_OVERRUN <> 0 ->
  let r2 := ak8963Read true cfg 2 magData m1 in
  let m2 := with_world (snd r2) w2 in
  fst (ak8963SPIQueuedReadTimeRemaining m2) = 0 ->
  let cr2 := ak8963SPICompleteRead (snd (ak8963SPIQueuedReadTimeRemaining m2)) in
  let buf := snd (fst cr2) in
  let status2 := u8 (buf_at buf 6) in
  Z.land status2 STATUS2_DATA_ERROR = 0 ->
  Z.land status2 STATUS2_MAG_SENSOR_OVERFLOW = 0 ->
  let r3 := ak8963Read true cfg 2 magData m2 in
  fst r1 = Some (false, magData) /\
  fst r2 = Some (false, magData) /\
  fst r3 = Some (true, decode buf (magGain m0) magData) /\
  state (snd r3) = CHECK_STATUS /\
  waiting (queuedRead (snd r3)) = false /\
  len (queuedRead (snd r3)) = 7.
Proof.
  intros Hst0 Hw0 r1 m1 Hrem1 cr1 status Hhit r2 m2 Hrem2 cr2 buf status2 Herr Hovf r3.
  unfold ak8963Read in r1, r2, r3.
  destruct (step_CHECK_STATUS 1 true magData m0 Hst0 Hw0)
    as (t1 & m1' & E1 & Hq1 & Hs1 & Hg1 & _).
  assert (Hm1 : m1 = with_world m1' w1) by (unfold m1, r1; rewrite E1; reflexivity).
  assert (Hst1 : state m1 = WAITING_FOR_STATUS) by (rewrite Hm1; exact Hs1).
  destruct (step_WAITING_FOR_STATUS_hit 1 true magData m1 Hst1 Hrem1 Hhit)
    as (t2 & m2' & E2 & Hq2 & Hs2 & Hg2 & _).
  assert (Hm2 : m2 = with_world m2' w2) by (unfold m2, r2; rewrite E2; reflexivity).
  assert (Hst2 : state m2 = WAITING_FOR_DATA) by (rewrite Hm2; exact Hs2).
  destruct (step_WAITING_FOR_DATA_accept 1 true magData m2 Hst2 Hrem2 Herr Hovf)
    as (Hr3 & Hs3 & Hq3 & _).
  fold cr2 in Hr3. fold buf in Hr3. fold r3 in Hr3, Hs3, Hq3.
  split; [ unfold r1; rewrite E1; reflexivity | ].
  split; [ unfold r2; rewrite E2; reflexivity | ].
  split.
  { rewrite Hr3, Hm2. unfold with_world. cbn [magGain].
    rewrite Hg2, Hm1. unfold with_world. cbn [magGain]. rewrite Hg1. reflexivity. }
  split; [ exact Hs3 | ].
  rewrite Hq3, Hm2. unfold with_world. cbn [queuedRead len waiting].
  rewrite Hq2. split; reflexivity.
Qed.

Lemma ak8963Read_three_ticks_witness :
  let m0 := sim_machine queuedRead_init CHECK_STATUS 100 [] [] in
  let w1 := {| sim_clock := 9000; sim_reads := [(true, [x01])]; sim_acks := [] |} in
  let w2 := {| sim_clock := 18000;
               sim_reads := [(true, [x00; x01; x00; x02; x00; x03; x00])];
               sim_acks := [] |} in
  let r1 := ak8963Read true spi_config 2 magData_init m0 in
  let m1 := with_world (snd r1) w1 in
  let r2 := ak8963Read true spi_config 2 magData_init m1 in
  let m2 := with_world (snd r2) w2 in
  let cr2 := ak8963SPICompleteRead (snd (ak8963SPIQueuedReadTimeRemaining m2)) in
  let buf := snd (fst cr2) in
  let r3 := ak8963Read true spi_config 2 magData_init m2 in
  buf = [x00; x01; x00; x02; x00; x03; x00] /\
  fst r1 = Some (false, magData_init) /\
  fst r2 = Some (false, magData_init) /\
  fst r3 = Some (true, decode buf (magGain m0) magData_init) /\
  state (snd r3) = CHECK_STATUS /\
  waiting (queuedRead (snd r3)) = false /\
  len (queuedRead (snd r3)) = 7.
Proof.
  cbv zeta. split; [ vm_compute; reflexivity | ].
  apply (ak8963Read_three_ticks spi_config magData_init
           (sim_machine queuedRead_init CHECK_STATUS 100 [] [])
           {| sim_clock := 9000; sim_reads := [(true, [x01])]; sim_acks := [] |}
           {| sim_clock := 18000;
              sim_reads := [(true, [x00; x01; x00; x02; x00; x03; x00])];
              sim_acks := [] |}).
  - reflexivity.
  - reflexivity.
  - vm_compute. reflexivity.
  - left. vm_compute. discriminate.
  - vm_compute. reflexivity.
  - vm_compute. reflexivity.
  - vm_compute. reflexivity.
Defined.

(** ** The pass-through transport *)

Lemma ak8963SPIRead_acks {W : Type} {P : Platform W} (addr_ reg_ len_ : Z) (w : W) :
  fst (fst (ak8963SPIRead addr_ reg_ len_ w)) = true.
Proof.
  unfold ak8963SPIRead.
  repeat match goal with
         | |- context [let (_, _) := ?c in _] => destruct c
         end.
  reflexivity.
Qed.

Lemma ak8963SPIWrite_acks {W : Type} {P : Platform W} (addr_ reg_ data : Z) (w : W) :
  fst (ak8963SPIWrite addr_ reg_ data w) = true.
Proof.
  unfold ak8963SPIWrite.
  repeat match goal with
         | |- context [let (_, _) := ?c in _] => destruct c
         end.
  reflexivity.
Qed.

(** X13: over the pass-through transport nothing can fail: the direct reader
    returns a sample exactly when the data-ready bit is set and bits 0 and 1
    of the trailing status byte are clear, whatever the MPU register accesses
    report, and then the sample is the decoded buffer. *)
Theorem ak8963Read_direct_over_spi {W : Type} {P : Platform W}
  (magData : magData_t) (m : machine W) :
  let r1 := status_read spi_config (world m) in
  let r2 := data_read spi_config (world m) in
  let status := u8 (buf_at (snd (fst r1)) 0) in
  let buf := snd (fst r2) in
  let status2 := u8 (buf_at buf 6) in
  let out := fst (ak8963Read_direct spi_config magData m) in
  fst out = negb (Z.land status STATUS1_DATA_READY =? 0) && (Z.land status2 3 =? 0) /\
  snd out = if fst out then decode buf (magGain m) magData else magData.
Proof.
  intros r1 r2 status buf status2 out. subst out.
  pose proof (ak8963Read_direct_unfold spi_config magData m) as E.
  cbv zeta in E. rewrite E. clear E.
  fold r1. fold r2. fold status. fold buf. fold status2.
  assert (H1 : fst (fst r1) = true) by apply ak8963SPIRead_acks.
  assert (H2 : fst (fst r2) = true) by apply ak8963SPIRead_acks.
  assert (H3 : fst (rearm_write spi_config (world m)) = true)
    by apply ak8963SPIWrite_acks.
  rewrite H1, H2, H3. cbn [negb orb].
  pose proof (status2_test_is_bits_0_1 (buf_at buf 6)) as Hb. fold status2 in Hb.
  rewrite Hb.
  destruct (Z.land status STATUS1_DATA_READY =? 0); cbn [negb andb fst snd];
    [ split; reflexivity | ].
  destruct (Z.land status2 3 =? 0); cbn [negb fst snd]; split; reflexivity.
Qed.

(** ** The direct reader and the re-arm write *)

(** X14: an invocation of the direct reader issues one, two or three transport
    transactions in the order status read, data read, re-arm write; the
    re-arm write is issued exactly when the sample was decoded into
    [magData], so an invocation whose data read fails or whose trailing byte
    is rejected ends without re-arming the chip.  The slot, the reader's
    state and the gains are never touched. *)
Theorem ak8963Read_direct_rearms_only_after_decoding {W : Type} {P : Platform W}
  (cfg : ak8963Configuration_t W) (magData : magData_t) (m : machine W) :
  let r1 := status_read cfg (world m) in
  let r2 := data_read cfg (world m) in
  let status := u8 (buf_at (snd (fst r1)) 0) in
  let buf := snd (fst r2) in
  let status2 := u8 (buf_at buf 6) in
  let ev1 := EvTransportRead AK8963_MAG_I2C_ADDRESS AK8963_MAG_REG_STATUS1 1 in
  let ev2 := EvTransportRead AK8963_MAG_I2C_ADDRESS AK8963_MAG_REG_HXL 7 in
  let ev3 := EvTransportWrite AK8963_MAG_I2C_ADDRESS AK8963_MAG_REG_CNTL CNTL_MODE_ONCE in
  let reaches_data := fst (fst r1) && negb (Z.land status STATUS1_DATA_READY =? 0) in
  let decoded := reaches_data && fst (fst r2) && (Z.land status2 3 =? 0) in
  let r := ak8963Read_direct cfg magData m in
  trace (snd r) =
    (if decoded then [ev3; ev2; ev1]
     else if reaches_data then [ev2; ev1] else [ev1]) ++ trace m /\
  snd (fst r) = (if decoded then decode buf (magGain m) magData else magData) /\
  (decoded = false -> fst (fst r) = false) /\
  queuedRead (snd r) = queuedRead m /\
  state (snd r) = state m /\
  magGain (snd r) = magGain m.
Proof.
  intros r1 r2 status buf status2 ev1 ev2 ev3 reaches_data decoded r.
  subst r decoded reaches_data.
  pose proof (ak8963Read_direct_unfold cfg magData m) as E.
  cbv zeta in E. rewrite E. clear E.
  fold r1. fold r2. fold status. fold buf. fold status2. fold ev1. fold ev2. fold ev3.
  pose proof (status2_test_is_bits_0_1 (buf_at buf 6)) as Hb. fold status2 in Hb.
  rewrite <- orb_assoc, Hb.
  destruct (fst (fst r1)); destruct (Z.land status STATUS1_DATA_READY =? 0);
    cbn [negb orb andb fst snd trace queuedRead state magGain];
    try (repeat split; reflexivity).
  destruct (fst (fst r2)); destruct (Z.land status2 3 =? 0);
    cbn [negb orb andb fst snd trace queuedRead state magGain];
    repeat split; try reflexivity; discriminate.
Qed.

(** ** Detection *)

Section DetectProperties.

Context {W : Type} {P : Platform W}.
Variables (USE_I2C USE_SPI : bool) (regs : detect_registers)
  (ak8963config : ak8963Configuration_t W) (mag : mag_t) (m : machine W).

Lemma ak8963Detect_spi_run (m0 : machine W) :
  let sp := ak8963SPIRead AK8963_MAG_I2C_ADDRESS AK8963_MAG_REG_WHO_AM_I 1
              (detect_spi_setup regs (world m0)) in
  let found := u8 (buf_at (snd (fst sp)) 0) =? AK8963_Device_ID in
  ak8963Detect_spi regs ak8963config mag m0 =
  ((found, if found then (spi_config, registered) else (ak8963config, mag)),
   {| queuedRead := queuedRead m0; state := state m0; magGain := magGain m0;
      world := snd sp;
      trace := [EvTransportRead AK8963_MAG_I2C_ADDRESS AK8963_MAG_REG_WHO_AM_I 1;
                EvDelay 10; EvWriteRegister (MPU_RA_USER_CTRL regs) 0x30;
                EvDelay 10; EvWriteRegister (MPU_RA_I2C_MST_CTRL regs) 0x0D;
                EvDelay 10; EvWriteRegister (MPU_RA_INT_PIN_CFG regs) 0x10]
               ++ trace m0 |}).
Proof.
  cbv zeta.
  pose proof (ak8963SPIRead_acks AK8963_MAG_I2C_ADDRESS AK8963_MAG_REG_WHO_AM_I 1
                (detect_spi_setup regs (world m0))) as Hack.
  unfold ak8963Detect_spi, detect_spi_setup, verifympu9250WriteRegister, call_delay,
    call, log, ret, bind, get in *; cbn in *.
  destruct (mpu6500WriteRegister (MPU_RA_INT_PIN_CFG regs) 16 (world m0))
    as [a1 w1]; cbn in *.
  destruct (mpu6500WriteRegister (MPU_RA_I2C_MST_CTRL regs) 13 (delay 10 w1))
    as [a2 w2]; cbn in *.
  destruct (mpu6500WriteRegister (MPU_RA_USER_CTRL regs) 48 (delay 10 w2))
    as [a3 w3]; cbn in *.
  destruct (ak8963SPIRead AK8963_MAG_I2C_ADDRESS AK8963_MAG_REG_WHO_AM_I 1
              (delay 10 w3)) as [[ack buf] w4]; cbn in *.
  subst ack. cbn.
  match goal with |- context [if ?c then _ else _] => destruct c end; reflexivity.
Qed.

Lemma ak8963Detect_run :
  let probe := detect_i2c_probe (world m) in
  let spi_probe := detect_spi_probe USE_I2C regs (world m) in
  let spi_found := u8 (buf_at (snd (fst spi_probe)) 0) =? AK8963_Device_ID in
  let ev_probe := EvTransportRead AK8963_MAG_I2C_ADDRESS AK8963_MAG_REG_WHO_AM_I 1 in
  let before := (if USE_I2C then [ev_probe] else []) ++ trace m in
  ak8963Detect USE_I2C USE_SPI regs ak8963config mag m =
  if detect_i2c_found USE_I2C (world m) then
    ((true, (i2c_config, registered)),
     {| queuedRead := queuedRead m; state := state m; magGain := magGain m;
        world := snd probe; trace := ev_probe :: trace m |})
  else if USE_SPI then
    ((spi_found, if spi_found then (spi_config, registered) else (ak8963config, mag)),
     {| queuedRead := queuedRead m; state := state m; magGain := magGain m;
        world := snd spi_probe;
        trace := [ev_probe;
                  EvDelay 10; EvWriteRegister (MPU_RA_USER_CTRL regs) 0x30;
                  EvDelay 10; EvWriteRegister (MPU_RA_I2C_MST_CTRL regs) 0x0D;
                  EvDelay 10; EvWriteRegister (MPU_RA_INT_PIN_CFG regs) 0x10]
                 ++ before |})
  else
    ((false, (ak8963config, mag)),
     {| queuedRead := queuedRead m; state := state m; magGain := magGain m;
        world := (if USE_I2C then snd probe else world m); trace := before |}).
Proof.
  cbv zeta.
  unfold detect_spi_probe, detect_i2c_found, detect_i2c_probe, ak8963Detect.
  destruct USE_I2C; cbn [andb].
  - unfold bind at 1. unfold call at 1.
    destruct (i2cRead AK8963_MAG_I2C_ADDRESS AK8963_MAG_REG_WHO_AM_I 1 (world m))
      as [[ack buf] w1]; cbn [fst snd].
    unfold bind at 1. unfold log at 1. cbn [fst snd].
    match goal with |- (if ?c then _ else _) _ = _ => destruct c end.
    + reflexivity.
    + destruct USE_SPI; [ | reflexivity ].
      pose proof ak8963Detect_spi_run as E. cbv zeta in E. rewrite E. reflexivity.
  - destruct USE_SPI.
    + pose proof ak8963Detect_spi_run as E. cbv zeta in E. rewrite E.
      destruct m; reflexivity.
    + destruct m; reflexivity.
Qed.

(** X15: detection binds nothing unless it found the device: when it returns
    false the configuration and the registry entry are the ones passed in;
    when it returns true both entry points are registered and the
    configuration is one of the two transports, the I2C one only if the I2C
    block is compiled in and the pass-through one only if its block is.  The
    driver's own variables are not touched. *)
Theorem ak8963Detect_all_or_nothing :
  let r := ak8963Detect USE_I2C USE_SPI regs ak8963config mag m in
  ((fst (fst r) = false /\ snd (fst r) = (ak8963config, mag))
   \/ (fst (fst r) = true /\
       (snd (fst r) = (i2c_config, registered) /\ USE_I2C = true
        \/ snd (fst r) = (spi_config, registered) /\ USE_SPI = true))) /\
  queuedRead (snd r) = queuedRead m /\
  state (snd r) = state m /\
  magGain (snd r) = magGain m.
Proof.
  cbv zeta. pose proof ak8963Detect_run as E. cbv zeta in E. rewrite E. clear E.
  destruct (detect_i2c_found USE_I2C (world m)) eqn:Hi.
  - cbn [fst snd queuedRead state magGain].
    split; [ | split; [ reflexivity | split; reflexivity ] ].
    right. split; [ reflexivity | ]. left. split; [ reflexivity | ].
    unfold detect_i2c_found in Hi. destruct USE_I2C; [ reflexivity | discriminate ].
  - destruct USE_SPI eqn:Hs; cbn [fst snd queuedRead state magGain];
      (split; [ | split; [ reflexivity | split; reflexivity ] ]).
    + match goal with |- context [if ?c then _ else _] => destruct c end;
        [ right | left ]; split; try reflexivity.
      right. split; reflexivity.
    + left. split; reflexivity.
Qed.

(** X16: the direct bus comes first: when the I2C block is compiled in and its
    identity read is acknowledged with the byte 0x48, detection binds the I2C
    transport and returns, having issued that one read and nothing else: no
    MPU register is written and nothing is waited for. *)
Theorem ak8963Detect_prefers_i2c :
  let probe := detect_i2c_probe (world m) in
  USE_I2C = true ->
  fst (fst probe) = true ->
  u8 (buf_at (snd (fst probe)) 0) = AK8963_Device_ID ->
  let r := ak8963Detect USE_I2C USE_SPI regs ak8963config mag m in
  fst r = (true, (i2c_config, registered)) /\
  world (snd r) = snd probe /\
  trace (snd r) =
    EvTransportRead AK8963_MAG_I2C_ADDRESS AK8963_MAG_REG_WHO_AM_I 1 :: trace m.
Proof.
  intros probe Hu Hack Hsig. cbv zeta.
  pose proof ak8963Detect_run as E. cbv zeta in E. rewrite E. clear E.
  assert (Hi : detect_i2c_found USE_I2C (world m) = true).
  { unfold detect_i2c_found. fold probe. rewrite Hu, Hack, Hsig. reflexivity. }
  rewrite Hi. repeat split.
Qed.

(** X17: the pass-through probe: when the I2C probe is absent or does not find
    the device and the pass-through block is compiled in, detection writes
    0x10, 0x0D and 0x30 to the three master registers with 10 ms after each,
    reads the identity register through the pass-through transport, and
    succeeds exactly when the byte read is 0x48; what the register writes
    report plays no part. *)
Theorem ak8963Detect_spi_probe :
  let spi_probe := detect_spi_probe USE_I2C regs (world m) in
  let ev_probe := EvTransportRead AK8963_MAG_I2C_ADDRESS AK8963_MAG_REG_WHO_AM_I 1 in
  detect_i2c_found USE_I2C (world m) = false ->
  USE_SPI = true ->
  let r := ak8963Detect USE_I2C USE_SPI regs ak8963config mag m in
  fst (fst r) = (u8 (buf_at (snd (fst spi_probe)) 0) =? AK8963_Device_ID) /\
  snd (fst r) = (if fst (fst r) then (spi_config, registered) else (ak8963config, mag)) /\
  trace (snd r) =
    [ev_probe;
     EvDelay 10; EvWriteRegister (MPU_RA_USER_CTRL regs) 0x30;
     EvDelay 10; EvWriteRegister (MPU_RA_I2C_MST_CTRL regs) 0x0D;
     EvDelay 10; EvWriteRegister (MPU_RA_INT_PIN_CFG regs) 0x10]
    ++ (if USE_I2C then [ev_probe] else []) ++ trace m.
Proof.
  intros spi_probe ev_probe Hi Hs. cbv zeta.
  pose proof ak8963Detect_run as E. cbv zeta in E. rewrite E. clear E.
  rewrite Hi, Hs. cbn [fst snd trace]. repeat split.
Qed.

End DetectProperties.

Lemma ak8963Detect_prefers_i2c_witness :
  let regs := {| MPU_RA_INT_PIN_CFG := 0x37; MPU_RA_I2C_MST_CTRL := 0x24;
                 MPU_RA_USER_CTRL := 0x6A |} in
  let mag := {| mag_init := None; mag_read := None |} in
  let m := sim_machine queuedRead_init CHECK_STATUS 0 [(true, [x48])] [] in
  let r := ak8963Detect true true regs spi_config mag m in
  fst r = (true, (i2c_config, registered)) /\
  world (snd r) = {| sim_clock := 0; sim_reads := []; sim_acks := [] |} /\
  trace (snd r) =
    [EvTransportRead AK8963_MAG_I2C_ADDRESS AK8963_MAG_REG_WHO_AM_I 1].
Proof.
  cbv zeta.
  assert (H := ak8963Detect_prefers_i2c true true
           {| MPU_RA_INT_PIN_CFG := 0x37; MPU_RA_I2C_MST_CTRL := 0x24;
              MPU_RA_USER_CTRL := 0x6A |}
           spi_config {| mag_init := None; mag_read := None |}
           (sim_machine queuedRead_init CHECK_STATUS 0 [(true, [x48])] [])
           eq_refl eq_refl eq_refl).
  cbv zeta in H. exact H.
Defined.

Lemma ak8963Detect_spi_probe_witness :
  let regs := {| MPU_RA_INT_PIN_CFG := 0x37; MPU_RA_I2C_MST_CTRL := 0x24;
                 MPU_RA_USER_CTRL := 0x6A |} in
  let mag := {| mag_init := None; mag_read := None |} in
  let m := sim_machine queuedRead_init CHECK_STATUS 0
             [(false, [x00]); (true, [x48])] [false; false; false] in
  let r := ak8963Detect true true regs i2c_config mag m in
  fst (fst r) = true /\
  snd (fst r) = (spi_config, registered) /\
  trace (snd r) =
    [EvTransportRead AK8963_MAG_I2C_ADDRESS AK8963_MAG_REG_WHO_AM_I 1;
     EvDelay 10; EvWriteRegister 0x6A 0x30;
     EvDelay 10; EvWriteRegister 0x24 0x0D;
     EvDelay 10; EvWriteRegister 0x37 0x10;
     EvTransportRead AK8963_MAG_I2C_ADDRESS AK8963_MAG_REG_WHO_AM_I 1].
Proof.
  cbv zeta.
  assert (H := ak8963Detect_spi_probe true true
           {| MPU_RA_INT_PIN_CFG := 0x37; MPU_RA_I2C_MST_CTRL := 0x24;
              MPU_RA_USER_CTRL := 0x6A |}
           i2c_config {| mag_init := None; mag_read := None |}
           (sim_machine queuedRead_init CHECK_STATUS 0
              [(false, [x00]); (true, [x48])] [false; false; false])
           eq_refl eq_refl).
  cbv zeta in H. destruct H as (H1 & H2 & H3).
  split; [ rewrite H1; reflexivity | ].
  split; [ rewrite H2, H1; reflexivity | exact H3 ].
Defined.

(** ** Calibration, beyond the formula *)

Lemma init_stores_gains {W : Type} {P : Platform W}
  (SPRACINGF3EVO : bool) (cfg : ak8963Configuration_t W) (m : machine W) :
  exists calibration : list byte,
    let m' := snd (ak8963Init SPRACINGF3EVO cfg m) in
    magGain m' X = gain_of_calibration (buf_at calibration X) /\
    magGain m' Y = gain_of_calibration (buf_at calibration Y) /\
    magGain m' Z_ = gain_of_calibration (buf_at calibration Z_).
Proof.
  unfold ak8963Init, config_write, config_read, call_delay, set_magGain,
    call, log, ret, bind, get; cbn.
  repeat platform_step.
  destruct SPRACINGF3EVO; repeat platform_step; eexists; repeat split.
Qed.

Lemma gain_closed_form (b : byte) :
  denotes (gain_of_calibration b) (inject_Z (30 * ((u8 b + 128) mod 256)) / 256).
Proof. destruct b; vm_compute; reflexivity. Qed.

(** X18: whatever the transport answers, the three gains initialization stores
    are of the form 30 k / 256 with k a byte, so they lie in [0, 30): for a
    calibration byte b the k is (b + 128) mod 256, which makes the bytes
    0..127 give the gains from 15 up and the bytes 128..255 the gains
    below 15. *)
Theorem ak8963Init_gain_range {W : Type} {P : Platform W}
  (SPRACINGF3EVO : bool) (cfg : ak8963Configuration_t W) (m : machine W) :
  let m' := snd (ak8963Init SPRACINGF3EVO cfg m) in
  (calibrated_gain (magGain m' X) /\
   calibrated_gain (magGain m' Y) /\
   calibrated_gain (magGain m' Z_)) /\
  (forall b : byte,
     denotes (gain_of_calibration b)
       (inject_Z (30 * ((u8 b + 128) mod 256)) / 256)).
Proof.
  cbv zeta. split; [ | exact gain_closed_form ].
  destruct (init_stores_gains SPRACINGF3EVO cfg m) as (cal & HX & HY & HZ).
  assert (Hk : forall b : byte, calibrated_gain (gain_of_calibration b)).
  { intros b. exists ((u8 b + 128) mod 256). split.
    - pose proof (Z.mod_pos_bound (u8 b + 128) 256). lia.
    - apply gain_closed_form. }
  rewrite HX, HY, HZ. repeat split; apply Hk.
Qed.

(** X19: initialization is best effort: whatever the acknowledgements, it runs
    all its steps in order (power down, 20 ms, fuse-ROM mode, 10 ms, the
    3-byte calibration read, 10 ms, power down, 10 ms, the two status reads)
    and ends by arming continuous mode 1 on the SPRACINGF3EVO build and
    single measurement otherwise.  It leaves the queued-read slot and the
    reader's state alone. *)
Theorem ak8963Init_protocol {W : Type} {P : Platform W}
  (SPRACINGF3EVO : bool) (cfg : ak8963Configuration_t W) (m : machine W) :
  let m' := snd (ak8963Init SPRACINGF3EVO cfg m) in
  let cntl := EvTransportWrite AK8963_MAG_I2C_ADDRESS AK8963_MAG_REG_CNTL in
  let rd := EvTransportRead AK8963_MAG_I2C_ADDRESS in
  trace m' =
    [cntl (if SPRACINGF3EVO then CNTL_MODE_CONT1 else CNTL_MODE_ONCE);
     rd AK8963_MAG_REG_STATUS2 1;
     rd AK8963_MAG_REG_STATUS1 1;
     EvDelay 10;
     cntl CNTL_MODE_POWER_DOWN;
     EvDelay 10;
     rd AK8963_MAG_REG_ASAX 3;
     EvDelay 10;
     cntl CNTL_MODE_FUSE_ROM;
     EvDelay 20;
     cntl CNTL_MODE_POWER_DOWN]
    ++ trace m /\
  queuedRead m' = queuedRead m /\
  state m' = state m.
Proof.
  cbv zeta.
  unfold ak8963Init, config_write, config_read, call_delay, set_magGain,
    call, log, ret, bind, get; cbn.
  repeat platform_step.
  destruct SPRACINGF3EVO; repeat platform_step; repeat split.
Qed.

(** ** Decoding *)

Lemma all_bytes_complete (b : byte) : In b all_bytes.
Proof.
  apply (nth_error_In all_bytes (N.to_nat (Byte.to_N b))).
  destruct b; reflexivity.
Qed.

Lemma for_all_bytes (p : byte -> bool) :
  forallb p all_bytes = true -> forall b, p b = true.
Proof.
  intros H b. rewrite forallb_forall in H. apply H, all_bytes_complete.
Qed.

Lemma option_Z_eqb_eq (a b : option Z) : option_Z_eqb a b = true -> a = b.
Proof.
  destruct a, b; cbn; intros H; try discriminate; [ | reflexivity ].
  apply Z.eqb_eq in H. subst. reflexivity.
Qed.

Lemma scaled_axis_unit (hi lo : byte) :
  scaled_axis hi lo (f32_of_Z 1) = negated_reading hi lo.
Proof.
  apply option_Z_eqb_eq. revert lo. revert hi.
  assert (H : forallb (fun hi => forallb (fun lo =>
                option_Z_eqb (scaled_axis hi lo (f32_of_Z 1)) (negated_reading hi lo))
                all_bytes) all_bytes = true) by (vm_compute; reflexivity).
  intros hi lo.
  apply (for_all_bytes _ (for_all_bytes _ H hi) lo).
Qed.

(** X20: with the gains the driver starts with (1.0 on each axis), decoding
    stores in X, Y and Z the negated little-endian signed readings of the
    byte pairs (1,0), (3,2) and (5,4), the high byte second; a raw reading of
    -32768 leaves its cell undetermined; no other cell of [magData] is
    written. *)
Theorem decode_with_unit_gain (buf : list byte) (magData : magData_t) :
  let out := decode buf magGain_init magData in
  out X = negated_reading (buf_at buf 1) (buf_at buf 0) /\
  out Y = negated_reading (buf_at buf 3) (buf_at buf 2) /\
  out Z_ = negated_reading (buf_at buf 5) (buf_at buf 4) /\
  forall i : nat, out (3 + i)%nat = magData (3 + i)%nat.
Proof.
  cbv zeta. unfold decode, store, magGain_init, X, Y, Z_. cbn [Nat.eqb].
  rewrite !scaled_axis_unit. repeat split.
Qed.

(** A calibration byte of 128 silences its axis: the gain is 0, and every
    reading decodes to 0. *)
Theorem zero_gain_decodes_to_zero (hi lo : byte) :
  scaled_axis hi lo (gain_of_calibration x80) = Some 0.
Proof.
  assert (Hg : gain_of_calibration x80 = S754_zero false) by (vm_compute; reflexivity).
  rewrite Hg.
  apply option_Z_eqb_eq. revert lo. revert hi.
  assert (H : forallb (fun hi => forallb (fun lo =>
                option_Z_eqb (scaled_axis hi lo (S754_zero false)) (Some 0))
                all_bytes) all_bytes = true) by (vm_compute; reflexivity).
  intros hi lo.
  apply (for_all_bytes _ (for_all_bytes _ H hi) lo).
Qed.

Lemma time_remaining_wraps_witness :
  let m := sim_machine {| waiting := true; len := 7; readStartedAt := 0 |}
             WAITING_FOR_DATA 2147491649 [] [] in
  fst (ak8963SPIQueuedReadTimeRemaining m) = 0 + 4294967296 + 8000 - 2147491649.
Proof.
  cbv zeta.
  apply (time_remaining_wraps
           (sim_machine {| waiting := true; len := 7; readStartedAt := 0 |}
              WAITING_FOR_DATA 2147491649 [] [])
           0 2147491649);
    [ reflexivity | reflexivity | reflexivity | lia ].
Defined.

(** ** Rounding in binary32 *)

Lemma iter_pos_iter {A : Type} (f : A -> A) (p : positive) :
  forall x, iter_pos f p x = Pos.iter f x p.
Proof.
  induction p as [ p IH | p IH | ]; intros x; cbn [iter_pos Pos.iter].
  - rewrite !IH. rewrite Pos.iter_swap. rewrite Pos.iter_swap. reflexivity.
  - rewrite !IH. reflexivity.
  - reflexivity.
Qed.

Lemma shr_1_m (mrs : shr_record) :
  0 <= shr_m mrs -> shr_m (shr_1 mrs) = shr_m mrs / 2.
Proof.
  destruct mrs as [m r s]. cbn [shr_m]. intros Hm.
  destruct m as [ | p | p ]; [ reflexivity | | lia ].
  destruct p as [ p | p | ]; cbn [shr_1 shr_m].
  - rewrite (Pos2Z.inj_xI p). Z.div_mod_to_equations. lia.
  - rewrite (Pos2Z.inj_xO p). Z.div_mod_to_equations. lia.
  - reflexivity.
Qed.

Lemma shr_1_flags (mrs : shr_record) :
  0 <= shr_m mrs ->
  shr_r (shr_1 mrs) = Z.odd (shr_m mrs) /\ shr_s (shr_1 mrs) = shr_r mrs || shr_s mrs.
Proof.
  destruct mrs as [m r s]. cbn [shr_m shr_r shr_s]. intros Hm.
  destruct m as [ | p | p ]; [ split; reflexivity | | lia ].
  destruct p; split; reflexivity.
Qed.

Lemma shr_iter (mrs : shr_record) (p : positive) :
  0 <= shr_m mrs ->
  let out := iter_pos shr_1 p mrs in
  shr_m out = shr_m mrs / 2 ^ Zpos p /\
  (shr_r mrs = false -> shr_s mrs = false -> (2 ^ Zpos p | shr_m mrs) ->
   shr_r out = false /\ shr_s out = false).
Proof.
  intros Hm. cbv zeta. rewrite iter_pos_iter.
  induction p as [ | p IH ] using Pos.peano_ind.
  - cbn [Pos.iter]. split; [ rewrite shr_1_m by assumption; reflexivity | ].
    intros Hr Hs [c Hc]. destruct (shr_1_flags mrs Hm) as [Fr Fs].
    rewrite Fr, Fs, Hr, Hs. split; [ | reflexivity ].
    rewrite Hc. change (2 ^ 1) with 2. rewrite Z.mul_comm, Z.odd_mul. reflexivity.
  - rewrite Pos.iter_succ. destruct IH as [IHm IHf].
    assert (Hpos : 0 <= shr_m (Pos.iter shr_1 mrs p)).
    { rewrite IHm. apply Z.div_pos; [ assumption | ]. apply Z.pow_pos_nonneg; lia. }
    assert (Hpow : 2 ^ Zpos (Pos.succ p) = 2 ^ Zpos p * 2).
    { rewrite Pos2Z.inj_succ, Z.pow_succ_r by lia. lia. }
    split.
    + rewrite shr_1_m by assumption. rewrite IHm, Hpow.
      rewrite Z.div_div; try lia.
    + intros Hr Hs [c Hc]. rewrite Hpow in Hc.
      destruct (shr_1_flags _ Hpos) as [Fr Fs].
      assert (Hdiv : (2 ^ Zpos p | shr_m mrs)) by (exists (c * 2); lia).
      destruct (IHf Hr Hs Hdiv) as [Gr Gs].
      rewrite Fr, Fs, Gr, Gs, IHm. split; [ | reflexivity ].
      assert (Hq : shr_m mrs / 2 ^ Zpos p = 2 * c).
      { rewrite Hc. replace (c * (2 ^ Zpos p * 2)) with ((2 * c) * 2 ^ Zpos p) by lia.
        apply Z.div_mul. pose proof (Z.pow_pos_nonneg 2 (Zpos p)). lia. }
      rewrite Hq, Z.odd_mul. reflexivity.
Qed.

Lemma digits2_bounds (p : positive) :
  2 ^ (Zpos (digits2_pos p) - 1) <= Zpos p < 2 ^ Zpos (digits2_pos p).
Proof.
  induction p as [ p IH | p IH | ]; cbn [digits2_pos].
  - rewrite Pos2Z.inj_succ, (Pos2Z.inj_xI p).
    replace (Z.succ (Zpos (digits2_pos p)) - 1) with (Z.succ (Zpos (digits2_pos p) - 1)) by lia.
    rewrite !Z.pow_succ_r by lia.
    destruct IH as [Hlo Hhi]. revert Hlo Hhi.
    generalize (2 ^ (Z.pos (digits2_pos p) - 1)) (2 ^ Z.pos (digits2_pos p)). lia.
  - rewrite Pos2Z.inj_succ, (Pos2Z.inj_xO p).
    replace (Z.succ (Zpos (digits2_pos p)) - 1) with (Z.succ (Zpos (digits2_pos p) - 1)) by lia.
    rewrite !Z.pow_succ_r by lia.
    destruct IH as [Hlo Hhi]. revert Hlo Hhi.
    generalize (2 ^ (Z.pos (digits2_pos p) - 1)) (2 ^ Z.pos (digits2_pos p)). lia.
  - cbn. lia.
Qed.

Lemma digits2_unique (p : positive) (k : Z) :
  2 ^ (k - 1) <= Zpos p < 2 ^ k -> Zpos (digits2_pos p) = k.
Proof.
  intros [Hlo Hhi]. pose proof (digits2_bounds p) as [Dlo Dhi].
  assert (0 < k).
  { destruct (Z.ltb_spec 0 k); [ assumption | ].
    exfalso. assert (2 ^ k <= 2 ^ 0) by (apply Z.pow_le_mono_r; lia).
    change (2 ^ 0) with 1 in *. lia. }
  destruct (Z.lt_trichotomy (Zpos (digits2_pos p)) k) as [Hlt | [Heq | Hgt]];
    [ | assumption | ]; exfalso.
  - assert (2 ^ Zpos (digits2_pos p) <= 2 ^ (k - 1)) by (apply Z.pow_le_mono_r; lia). lia.
  - assert (2 ^ k <= 2 ^ (Zpos (digits2_pos p) - 1)) by (apply Z.pow_le_mono_r; lia). lia.
Qed.

Lemma binary_round_aux_unfold (sgn : bool) (mx ex : Z) :
  binary_round_aux f32_prec f32_emax sgn mx ex loc_Exact =
  let '(mrs', e') :=
    shr (exact_record mx) ex (Z.max (Zdigits2 mx + ex - 24) (-149) - ex) in
  let m1 := round_nearest_even (shr_m mrs') (loc_of_shr_record mrs') in
  let '(mrs'', e'') :=
    shr (exact_record m1) e' (Z.max (Zdigits2 m1 + e' - 24) (-149) - e') in
  match shr_m mrs'' with
  | Z0 => S754_zero sgn
  | Zpos m => if e'' <=? 104 then S754_finite sgn m e'' else S754_infinity sgn
  | Zneg _ => S754_nan
  end.
Proof. reflexivity. Qed.

Lemma shr_none (mrs : shr_record) (e n : Z) : n <= 0 -> shr mrs e n = (mrs, e).
Proof. intros H. destruct n; [ reflexivity | lia | reflexivity ]. Qed.

Lemma shr_some (mrs : shr_record) (e n : Z) :
  0 < n -> 0 <= shr_m mrs ->
  snd (shr mrs e n) = e + n /\
  shr_m (fst (shr mrs e n)) = shr_m mrs / 2 ^ n /\
  (shr_r mrs = false -> shr_s mrs = false -> (2 ^ n | shr_m mrs) ->
   shr_r (fst (shr mrs e n)) = false /\ shr_s (fst (shr mrs e n)) = false).
Proof.
  intros Hn Hm. destruct n as [ | p | p ]; try lia.
  cbn [shr fst snd]. split; [ reflexivity | ]. apply shr_iter. assumption.
Qed.

(** No rounding when the bits shifted out are zero. *)
Lemma round_exact (sgn : bool) (P : positive) (E : Z) :
  let d := Zpos (digits2_pos P) in
  let n := d - 24 in
  -149 <= d + E - 24 ->
  E <= 104 ->
  E + n <= 104 ->
  n <= 0 \/ (2 ^ n | Zpos P) ->
  exists m e,
    binary_round_aux f32_prec f32_emax sgn (Zpos P) E loc_Exact = S754_finite sgn m e /\
    e = E + Z.max n 0 /\ Zpos P = Zpos m * 2 ^ (e - E).
Proof.
  intros d n Hlo HE Hhi Hex.
  rewrite binary_round_aux_unfold. cbn [Zdigits2]. fold d.
  rewrite (Z.max_l (d + E - 24) (-149)) by lia.
  replace (d + E - 24 - E) with n by (unfold n; lia).
  destruct (Z.leb_spec n 0) as [Hn | Hn].
  - rewrite shr_none by assumption. cbn [shr_m exact_record loc_of_shr_record
      round_nearest_even Zdigits2]. fold d.
    rewrite (Z.max_l (d + E - 24) (-149)) by lia.
    replace (d + E - 24 - E) with n by (unfold n; lia).
    rewrite shr_none by assumption. cbn [shr_m exact_record].
    destruct (Z.leb_spec E 104); [ | lia ].
    exists P, E. split; [ reflexivity | ]. split; [ lia | ].
    rewrite Z.sub_diag. cbn. lia.
  - destruct Hex as [Hex | Hdiv]; [ lia | ].
    destruct (shr_some (exact_record (Zpos P)) E n Hn) as (He & Hm & Hf);
      [ cbn; lia | ].
    destruct (Hf eq_refl eq_refl Hdiv) as [Hr Hs]. clear Hf.
    destruct (shr (exact_record (Zpos P)) E n) as [mrs' e'].
    cbn [fst snd] in *. subst e'.
    destruct mrs' as [m1 r1 s1]. cbn [shr_m shr_r shr_s] in *. subst r1 s1.
    cbn [loc_of_shr_record round_nearest_even]. cbn [exact_record shr_m] in Hm.
    destruct Hdiv as [c Hc].
    assert (Hpow : 0 < 2 ^ n) by (apply Z.pow_pos_nonneg; lia).
    rewrite Hc, Z.div_mul in Hm by lia. subst m1.
    assert (Hcpos : 0 < c) by nia.
    destruct c as [ | q | q ]; try lia.
    assert (Hdq : Zpos (digits2_pos q) = 24).
    { apply digits2_unique. pose proof (digits2_bounds P) as [Dlo Dhi]. fold d in Dlo, Dhi.
      replace d with (24 + n) in Dhi by (unfold n; lia).
      replace (d - 1) with (23 + n) in Dlo by (unfold n; lia).
      rewrite Z.pow_add_r in Dlo, Dhi by lia.
      change (24 - 1) with 23. rewrite Hc in Dlo, Dhi. split; nia. }
    cbn [Zdigits2]. rewrite Hdq.
    rewrite (Z.max_l (24 + (E + n) - 24) (-149)) by (unfold n; lia).
    replace (24 + (E + n) - 24 - (E + n)) with 0 by lia.
    rewrite shr_none by lia. cbn [shr_m exact_record].
    destruct (Z.leb_spec (E + n) 104); [ | lia ].
    exists q, (E + n). split; [ reflexivity | ]. split; [ lia | ].
    replace (E + n - E) with n by lia. exact Hc.
Qed.

(** A product too wide to be exact still rounds to a 24-bit mantissa. *)
Lemma round_large (sgn : bool) (P : positive) (E : Z) :
  let d := Zpos (digits2_pos P) in
  let n := d - 24 in
  0 < n ->
  -149 <= d + E - 24 ->
  E + n + 1 <= 104 ->
  exists m e,
    binary_round_aux f32_prec f32_emax sgn (Zpos P) E loc_Exact = S754_finite sgn m e /\
    8388608 <= Zpos m /\ E + n <= e.
Proof.
  intros d n Hn Hlo Hhi.
  rewrite binary_round_aux_unfold. cbn [Zdigits2]. fold d.
  rewrite (Z.max_l (d + E - 24) (-149)) by lia.
  replace (d + E - 24 - E) with n by (unfold n; lia).
  destruct (shr_some (exact_record (Zpos P)) E n Hn) as (He & Hm & _);
    [ cbn; lia | ].
  destruct (shr (exact_record (Zpos P)) E n) as [mrs' e'].
  cbn [fst snd] in *. subst e'. cbn [exact_record shr_m] in Hm.
  assert (Hpow : 0 < 2 ^ n) by (apply Z.pow_pos_nonneg; lia).
  assert (Hm1 : 8388608 <= shr_m mrs' < 16777216).
  { rewrite Hm. pose proof (digits2_bounds P) as [Dlo Dhi]. fold d in Dlo, Dhi.
    replace d with (24 + n) in Dhi by (unfold n; lia).
    replace (d - 1) with (23 + n) in Dlo by (unfold n; lia).
    rewrite Z.pow_add_r in Dlo, Dhi by lia.
    change (2 ^ 23) with 8388608 in Dlo. change (2 ^ 24) with 16777216 in Dhi.
    split.
    - apply Z.div_le_lower_bound; lia.
    - apply Z.div_lt_upper_bound; lia. }
  set (m1 := round_nearest_even (shr_m mrs') (loc_of_shr_record mrs')).
  assert (Hm2 : shr_m mrs' <= m1 <= shr_m mrs' + 1).
  { unfold m1, round_nearest_even.
    destruct (loc_of_shr_record mrs') as [ | [ | | ] ]; try lia.
    destruct (Z.even (shr_m mrs')); lia. }
  destruct m1 as [ | q | q ] eqn:Hq; try lia.
  destruct (Z.eq_dec (Zpos q) 16777216) as [Htop | Hnot].
  - assert (Hdq : Zpos (digits2_pos q) = 25).
    { apply digits2_unique. rewrite Htop. cbn. lia. }
    cbn [Zdigits2]. rewrite Hdq.
    rewrite (Z.max_l (25 + (E + n) - 24) (-149)) by (unfold n; lia).
    replace (25 + (E + n) - 24 - (E + n)) with 1 by lia.
    rewrite Htop. cbn [shr exact_record iter_pos shr_1 shr_m].
    destruct (Z.leb_spec (E + n + 1) 104); [ | lia ].
    eexists _, _. split; [ reflexivity | ]. split; lia.
  - assert (Hdq : Zpos (digits2_pos q) = 24).
    { apply digits2_unique. change (2 ^ (24 - 1)) with 8388608.
      change (2 ^ 24) with 16777216. lia. }
    cbn [Zdigits2]. rewrite Hdq.
    rewrite (Z.max_l (24 + (E + n) - 24) (-149)) by (unfold n; lia).
    replace (24 + (E + n) - 24 - (E + n)) with 0 by lia.
    rewrite shr_none by lia. cbn [shr_m exact_record].
    destruct (Z.leb_spec (E + n) 104); [ | lia ].
    exists q, (E + n). split; [ reflexivity | ]. split; lia.
Qed.

(** ** The product of a reading and a gain *)

Lemma raw_shape_holds (hi lo : byte) : raw_shape hi lo = true.
Proof.
  revert lo. revert hi.
  assert (H : forallb (fun hi => forallb (fun lo => raw_shape hi lo) all_bytes)
                all_bytes = true) by (vm_compute; reflexivity).
  intros hi lo. apply (for_all_bytes _ (for_all_bytes _ H hi) lo).
Qed.

Lemma gain_shape_holds (c : byte) : gain_shape c = true.
Proof. destruct c; vm_compute; reflexivity. Qed.

Lemma trunc_of_exact (N s v : Z) (m : positive) :
  0 <= v -> Zpos m = N * 2 ^ v -> Zpos m / 2 ^ (v + 8) = N / 256.
Proof.
  intros Hv Hm. rewrite Hm, Z.pow_add_r by lia. change (2 ^ 8) with 256.
  rewrite (Z.mul_comm (2 ^ v) 256).
  apply Z.div_mul_cancel_r; [ lia | ].
  pose proof (Z.pow_pos_nonneg 2 v). lia.
Qed.

Lemma product_rounds (sgn : bool) (mx mg : positive) (A K a b : Z) :
  0 < A <= 32768 -> 0 < K <= 7650 ->
  0 <= a <= 23 -> 0 <= b <= 23 ->
  Zpos mx = A * 2 ^ a -> Zpos mg = K * 2 ^ b ->
  Zpos mx < 16777216 -> Zpos mg < 16777216 ->
  let r := binary_round_aux f32_prec f32_emax sgn (Zpos (mx * mg)) (- a + (- b - 8))
             loc_Exact in
  exists t,
    f32_trunc r = Some (if sgn then - t else t) /\
    (A * K < 16777216 -> t = A * K / 256) /\
    (16777216 <= A * K -> 65536 <= t).
Proof.
  intros HA HK Ha Hb Hmx Hmg Bx Bg r. subst r.
  set (P := (mx * mg)%positive).
  set (s := a + b).
  set (N := A * K).
  set (E := - a + (- b - 8)).
  assert (HE : E = - s - 8) by (unfold E, s; lia).
  assert (HP : Zpos P = N * 2 ^ s).
  { unfold P, N, s. rewrite Pos2Z.inj_mul, Hmx, Hmg, Z.pow_add_r by lia. ring. }
  assert (HN : 0 < N) by (unfold N; nia).
  assert (Hs : 0 <= s) by (unfold s; lia).
  assert (Hps : 0 < 2 ^ s) by (apply Z.pow_pos_nonneg; lia).
  pose proof (digits2_bounds P) as [Dlo Dhi].
  set (d := Zpos (digits2_pos P)) in *.
  assert (Hd1 : 1 <= d) by (unfold d; lia).
  assert (Hd48 : d <= 48).
  { assert (Zpos P < 2 ^ 48).
    { unfold P. rewrite Pos2Z.inj_mul. change (2 ^ 48) with (16777216 * 16777216). nia. }
    destruct (Z.leb_spec d 48); [ assumption | ].
    exfalso. assert (2 ^ 48 <= 2 ^ (d - 1)) by (apply Z.pow_le_mono_r; lia). lia. }
  destruct (Z.ltb_spec N 16777216) as [Hsmall | Hbig].
  - (* the product has at most 24 significant bits *)
    assert (Hds : d <= 24 + s).
    { assert (Zpos P < 2 ^ (24 + s)).
      { rewrite HP, Z.pow_add_r by lia. change (2 ^ 24) with 16777216. nia. }
      destruct (Z.leb_spec d (24 + s)); [ assumption | ].
      exfalso. assert (2 ^ (24 + s) <= 2 ^ (d - 1)) by (apply Z.pow_le_mono_r; lia). lia. }
    destruct (round_exact sgn P E) as (m & e & Hr & He & Hval).
    + fold d. lia.
    + lia.
    + fold d. lia.
    + fold d. destruct (Z.leb_spec (d - 24) 0) as [Hn | Hn]; [ left; assumption | ].
      right. exists (N * 2 ^ (s - (d - 24))).
      rewrite HP, <- Z.mul_assoc, <- Z.pow_add_r by lia.
      replace (s - (d - 24) + (d - 24)) with s by lia. reflexivity.
    + fold d in He. rewrite Hr. cbn [f32_trunc].
      set (v := s - Z.max (d - 24) 0).
      assert (Hv : 0 <= v) by (unfold v; lia).
      assert (He' : e = - (v + 8)) by (unfold v; lia).
      assert (Hm : Zpos m = N * 2 ^ v).
      { replace (e - E) with (Z.max (d - 24) 0) in Hval by lia.
        rewrite HP in Hval.
        assert (Hsplit : 2 ^ s = 2 ^ v * 2 ^ Z.max (d - 24) 0).
        { rewrite <- Z.pow_add_r by lia. f_equal. unfold v. lia. }
        rewrite Hsplit, Z.mul_assoc in Hval.
        apply Z.mul_reg_r in Hval; [ symmetry; exact Hval | ].
        pose proof (Z.pow_pos_nonneg 2 (Z.max (d - 24) 0)). lia. }
      destruct (Z.leb_spec 0 e) as [Hge | Hlt]; [ lia | ].
      exists (Zpos m / 2 ^ (- e)). split; [ reflexivity | ].
      split; [ intros _ | intros; lia ].
      rewrite He'. replace (- - (v + 8)) with (v + 8) by lia.
      apply (trunc_of_exact N s v m); assumption.
  - (* the product is rounded, and stays above 2^16 *)
    assert (Hds : 25 + s <= d).
    { assert (2 ^ (24 + s) <= Zpos P).
      { rewrite HP, Z.pow_add_r by lia. change (2 ^ 24) with 16777216. nia. }
      destruct (Z.leb_spec (25 + s) d); [ assumption | ].
      exfalso. assert (2 ^ d <= 2 ^ (24 + s)) by (apply Z.pow_le_mono_r; lia). lia. }
    destruct (round_large sgn P E) as (m & e & Hr & Hm & He).
    + fold d. lia.
    + fold d. lia.
    + fold d. lia.
    + fold d in He. rewrite Hr. cbn [f32_trunc].
      destruct (Z.leb_spec 0 e) as [Hge | Hlt].
      * exists (Zpos m * 2 ^ e). split; [ reflexivity | ].
        split; [ intros; lia | intros _ ].
        pose proof (Z.pow_pos_nonneg 2 e). nia.
      * exists (Zpos m / 2 ^ (- e)). split; [ reflexivity | ].
        split; [ intros; lia | intros _ ].
        apply Z.div_le_lower_bound; [ apply Z.pow_pos_nonneg; lia | ].
        assert (2 ^ (- e) <= 2 ^ 7) by (apply Z.pow_le_mono_r; lia).
        change (2 ^ 7) with 128 in *. nia.
Qed.

Lemma quot_signed (raw K : Z) :
  0 < K -> raw <> 0 ->
  Z.quot (raw * K) 256 =
  if raw <? 0 then - (Z.abs raw * K / 256) else Z.abs raw * K / 256.
Proof.
  intros HK Hraw. destruct (Z.ltb_spec raw 0) as [Hneg | Hpos].
  - replace (raw * K) with (- (Z.abs raw * K)) by lia.
    rewrite Z.quot_opp_l by lia. rewrite Z.quot_div_nonneg by nia. reflexivity.
  - replace (Z.abs raw) with raw by lia. apply Z.quot_div_nonneg; nia.
Qed.

Lemma scaled_axis_exact (hi lo c : byte) :
  scaled_axis hi lo (gain_of_calibration c) = scaled_reading hi lo c.
Proof.
  pose proof (raw_shape_holds hi lo) as Hraw.
  pose proof (gain_shape_holds c) as Hgain.
  unfold scaled_axis, scaled_reading, raw_shape, gain_shape, f32_mul in *.
  cbv zeta in *.
  set (raw := raw_axis hi lo) in *. set (K := gain_numerator c) in *.
  destruct (f32_of_Z raw) as [ sx | sx | | sx mx ex ]; try discriminate.
  - (* a zero reading *)
    apply andb_prop in Hraw. destruct Hraw as [Hz _]. apply Z.eqb_eq in Hz.
    rewrite Hz. cbn [Z.mul Z.quot Z.quotrem fst Z.leb Z.compare andb].
    destruct (gain_of_calibration c); try discriminate; reflexivity.
  - repeat (apply andb_prop in Hraw; destruct Hraw as [Hraw ?]).
    apply negb_true_iff, Z.eqb_neq in Hraw.
    match goal with H : Bool.eqb _ _ = true |- _ => apply eqb_prop in H; subst sx end.
    repeat match goal with
           | H : (_ <=? _) = true |- _ => apply Z.leb_le in H
           | H : (_ <? _) = true |- _ => apply Z.ltb_lt in H
           | H : (_ =? _) = true |- _ => apply Z.eqb_eq in H
           end.
    destruct (gain_of_calibration c) as [ sg | sg | | sg mg eg ]; try discriminate.
    + (* a zero gain *)
      apply andb_prop in Hgain. destruct Hgain as [Hz _]. apply Z.eqb_eq in Hz.
      rewrite Hz, Z.mul_0_r. reflexivity.
    + repeat (apply andb_prop in Hgain; destruct Hgain as [Hgain ?]).
      apply negb_true_iff in Hgain. subst sg.
      repeat match goal with
             | H : (_ <=? _) = true |- _ => apply Z.leb_le in H
             | H : (_ <? _) = true |- _ => apply Z.ltb_lt in H
             | H : (_ =? _) = true |- _ => apply Z.eqb_eq in H
             end.
      cbn [SFmul]. rewrite xorb_false_r.
      replace (ex + eg) with (- (- ex) + (- (- eg - 8) - 8)) by lia.
      destruct (product_rounds (raw <? 0) mx mg (Z.abs raw) K (- ex) (- eg - 8))
        as (t & Ht & Hsmall & Hbig); try lia; try assumption.
      unfold f32_to_int16. rewrite Ht.
      rewrite (quot_signed raw K) by lia.
      destruct (Z.ltb_spec (Z.abs raw * K) 16777216) as [Hs | Hb].
      * rewrite (Hsmall Hs). reflexivity.
      * specialize (Hbig Hb).
        assert (Hq : 65536 <= Z.abs raw * K / 256)
          by (apply Z.div_le_lower_bound; lia).
        destruct (raw <? 0).
        -- replace (-32768 <=? - t) with false by (symmetry; apply Z.leb_gt; lia).
           replace (-32768 <=? - (Z.abs raw * K / 256)) with false
             by (symmetry; apply Z.leb_gt; lia).
           reflexivity.
        -- replace (t <=? 32767) with false by (symmetry; apply Z.leb_gt; lia).
           replace (Z.abs raw * K / 256 <=? 32767) with false
             by (symmetry; apply Z.leb_gt; lia).
           rewrite !andb_false_r. reflexivity.
Qed.

(** X21: for every calibration byte and every pair of data bytes the binary32
    computation of an axis comes to integer arithmetic: with K = 30 * ((c +
    128) mod 256) and r the negated little-endian signed reading, the value
    stored is r * K / 256 cut towards zero when that lies in
    [-32768, 32767], and is undetermined otherwise. *)
Theorem scaled_axis_calibrated (hi lo c : byte) :
  scaled_axis hi lo (gain_of_calibration c) = scaled_reading hi lo c.
Proof. exact (scaled_axis_exact hi lo c). Qed.

